(** * multipatch_analysis: morphology import, job freshness, timestamp
      lookups and waveform fits

    A shallow embedding of

    - [aisynphys/pipeline/multipatch/morphology.py]
      ([MorphologyPipelineModule.create_db_entries], [ready_jobs],
      [import_morpho_db], [morpho_db]);
    - [multipatch_analysis/database/synphys_database.py]
      ([slice_from_timestamp], [experiment_from_timestamp],
      [experiment_from_uid], [list_experiments]);
    - [analyses/exp_fit_test.py] ([ExpFitMethod], [PspFitMethod]).

    Python values are modelled by inductive types, [dict]s whose order is
    irrelevant by [gmap], ordered dictionaries and rows by association
    lists, exceptions by a sum type, [float] by IEEE 754 binary64
    ([spec_float] at precision 53), [str] by [string] (a character is a
    code point below 256), and [hashlib.md5] by RFC 1321 on the UTF-8
    bytes. *)

From Stdlib Require Import ZArith List String Ascii Bool Lia.
From Stdlib Require Import Floats.SpecFloat.
From stdpp Require Import gmap strings list fin_maps pretty.

Import ListNotations.
Local Open Scope string_scope.
Local Open Scope list_scope.
Local Open Scope Z_scope.

(* ===================================================================== *)
(** ** Python: exceptions and results *)
(* ===================================================================== *)

(** Binary64 numbers. *)
Abbreviation float := spec_float.

(** The message of a [KeyError] or [RuntimeError]: a text, or a template
    and the timestamp formatted into it with [%0.3f]. *)
Inductive message : Type :=
| Msg (text : string)
| Fmt (template : string) (ts : float).

(** The exception classes the modelled code raises or lets through. *)
Inductive exn : Type :=
| ImportError (msg : string)
| PyodbcError (msg : string)
| OSError (msg : string)
| JSONDecodeError (msg : string)
| AttributeError (msg : string)
| IndexError (msg : string)
| KeyError (msg : message)
| RuntimeError (msg : message)
| TypeError (msg : string)
| ValueError (msg : string)
| OverflowError (msg : string)
| Exception_ (msg : string).

(** [isinstance(exc, ImportError)] and [isinstance(exc, ValueError)]:
    the class tests of the two [except] clauses of the module
    ([json.JSONDecodeError] is a subclass of [ValueError]). *)
Definition is_ImportError (e : exn) : bool :=
  match e with ImportError _ => true | _ => false end.

Definition is_ValueError (e : exn) : bool :=
  match e with ValueError _ | JSONDecodeError _ => true | _ => false end.

(** The outcome of a call: a value or a raised exception. *)
Inductive result (A : Type) : Type :=
| Ok (a : A)
| Raise (e : exn).
Arguments Ok {A} a.
Arguments Raise {A} e.

(** Sequencing: an exception raised by the first call skips the rest.
    Written [x ← r; k] below. *)
#[global] Instance result_bind : MBind result :=
  fun A B (k : A -> result B) (r : result A) =>
    match r with
    | Ok a => k a
    | Raise e => Raise e
    end.

#[global] Instance result_ret : MRet result := fun A a => Ok a.

Definition raises {A : Type} (r : result A) : bool :=
  match r with Ok _ => false | Raise _ => true end.

(* ===================================================================== *)
(** ** hashlib.md5 (RFC 1321) *)
(* ===================================================================== *)

Module MD5.

Definition mask32 (x : Z) : Z := Z.land x 0xffffffff.

Definition add32 (x y : Z) : Z := mask32 (x + y).

Definition not32 (x : Z) : Z := Z.lxor x 0xffffffff.

Definition rotl32 (x c : Z) : Z :=
  mask32 (Z.lor (Z.shiftl x c) (Z.shiftr x (32 - c))).

Definition s_table : list Z :=
  [7; 12; 17; 22; 7; 12; 17; 22; 7; 12; 17; 22; 7; 12; 17; 22;
   5; 9; 14; 20; 5; 9; 14; 20; 5; 9; 14; 20; 5; 9; 14; 20;
   4; 11; 16; 23; 4; 11; 16; 23; 4; 11; 16; 23; 4; 11; 16; 23;
   6; 10; 15; 21; 6; 10; 15; 21; 6; 10; 15; 21; 6; 10; 15; 21].

(** [K_table[i] = floor(2^32 * abs(sin(i + 1)))]. *)
Definition K_table : list Z :=
  [0xd76aa478; 0xe8c7b756; 0x242070db; 0xc1bdceee; 0xf57c0faf; 0x4787c62a; 0xa8304613; 0xfd469501;
   0x698098d8; 0x8b44f7af; 0xffff5bb1; 0x895cd7be; 0x6b901122; 0xfd987193; 0xa679438e; 0x49b40821;
   0xf61e2562; 0xc040b340; 0x265e5a51; 0xe9b6c7aa; 0xd62f105d; 0x02441453; 0xd8a1e681; 0xe7d3fbc8;
   0x21e1cde6; 0xc33707d6; 0xf4d50d87; 0x455a14ed; 0xa9e3e905; 0xfcefa3f8; 0x676f02d9; 0x8d2a4c8a;
   0xfffa3942; 0x8771f681; 0x6d9d6122; 0xfde5380c; 0xa4beea44; 0x4bdecfa9; 0xf6bb4b60; 0xbebfbc70;
   0x289b7ec6; 0xeaa127fa; 0xd4ef3085; 0x04881d05; 0xd9d4d039; 0xe6db99e5; 0x1fa27cf8; 0xc4ac5665;
   0xf4292244; 0x432aff97; 0xab9423a7; 0xfc93a039; 0x655b59c3; 0x8f0ccc92; 0xffeff47d; 0x85845dd1;
   0x6fa87e4f; 0xfe2ce6e0; 0xa3014314; 0x4e0811a1; 0xf7537e82; 0xbd3af235; 0x2ad7d2bb; 0xeb86d391].

Definition nthZ (l : list Z) (i : Z) : Z := nth (Z.to_nat i) l 0.

(** The four chaining words. *)
Record state := State { sA : Z; sB : Z; sC : Z; sD : Z }.

Definition init_state : state :=
  State 0x67452301 0xefcdab89 0x98badcfe 0x10325476.

(** Operation [i] (0..63) of the compression function on the 16 message
    words [M]. *)
Definition step (M : list Z) (st : state) (i : Z) : state :=
  let '(State A B C D) := st in
  let '(F, g) :=
    if i <? 16 then (Z.lor (Z.land B C) (Z.land (not32 B) D), i)
    else if i <? 32 then (Z.lor (Z.land D B) (Z.land (not32 D) C), (5 * i + 1) mod 16)
    else if i <? 48 then (Z.lxor (Z.lxor B C) D, (3 * i + 5) mod 16)
    else (Z.lxor C (Z.lor B (not32 D)), (7 * i) mod 16) in
  let F' := add32 (add32 (add32 F A) (nthZ K_table i)) (nthZ M g) in
  State D (add32 B (rotl32 F' (nthZ s_table i))) B C.

Definition compress (st : state) (M : list Z) : state :=
  let st' := fold_left (step M) (map Z.of_nat (seq 0 64)) st in
  State (add32 (sA st) (sA st')) (add32 (sB st) (sB st'))
        (add32 (sC st) (sC st')) (add32 (sD st) (sD st')).

(** Little-endian bytes of a [n]-byte word. *)
Fixpoint le_bytes (n : nat) (x : Z) : list Z :=
  match n with
  | O => []
  | S n' => Z.land x 0xff :: le_bytes n' (Z.shiftr x 8)
  end.

Fixpoint le_word (bs : list Z) : Z :=
  match bs with
  | [] => 0
  | b :: bs' => b + 256 * le_word bs'
  end.

(** The message followed by 0x80, zeros up to 56 mod 64, and the bit
    length as a 64-bit little-endian word. *)
Definition pad (msg : list Z) : list Z :=
  let len := Z.of_nat (List.length msg) in
  let zeros := (55 - len) mod 64 in
  msg ++ [0x80] ++ repeat 0 (Z.to_nat zeros)
      ++ le_bytes 8 (Z.land (8 * len) 0xffffffffffffffff).

(** Splits [bs] into [n] groups of [k] elements. *)
Fixpoint chunks {A : Type} (k n : nat) (bs : list A) : list (list A) :=
  match n with
  | O => []
  | S n' => firstn k bs :: chunks k n' (skipn k bs)
  end.

Definition words_of_block (block : list Z) : list Z :=
  map le_word (chunks 4 16 block).

Definition digest (msg : list Z) : list Z :=
  let p := pad msg in
  let blocks := chunks 64 (List.length p / 64)%nat p in
  let st := fold_left (fun st b => compress st (words_of_block b)) blocks init_state in
  le_bytes 4 (sA st) ++ le_bytes 4 (sB st) ++ le_bytes 4 (sC st) ++ le_bytes 4 (sD st).

Definition hex_digit (d : Z) : ascii :=
  if d <? 10 then ascii_of_N (Z.to_N (48 + d)) else ascii_of_N (Z.to_N (87 + d)).

Fixpoint hex_of_bytes (bs : list Z) : string :=
  match bs with
  | [] => EmptyString
  | b :: bs' => String (hex_digit (Z.shiftr b 4)) (String (hex_digit (Z.land b 0xf)) (hex_of_bytes bs'))
  end.

(** [s.encode()]: the UTF-8 bytes of a string.  A character of a
    [string] is a code point below 256; those from 128 on take two
    bytes. *)
Fixpoint encode (s : string) : list Z :=
  match s with
  | EmptyString => []
  | String c s' =>
      let n := Z.of_N (N_of_ascii c) in
      if n <? 128 then n :: encode s'
      else Z.lor 0xc0 (Z.shiftr n 6) :: Z.lor 0x80 (Z.land n 0x3f) :: encode s'
  end.

(** [hashlib.md5(s.encode()).hexdigest()] *)
Definition hexdigest (s : string) : string :=
  hex_of_bytes (digest (encode s)).

End MD5.

(* ===================================================================== *)
(** ** Python floats: IEEE 754 binary64 *)
(* ===================================================================== *)

Module F64.

Definition prec : Z := 53.
Definition emax : Z := 1024.

Definition add : float -> float -> float := SFadd prec emax.
Definition sub : float -> float -> float := SFsub prec emax.
Definition mul : float -> float -> float := SFmul prec emax.
Definition div : float -> float -> float := SFdiv prec emax.
Definition sqrt : float -> float := SFsqrt prec emax.
Definition opp : float -> float := SFopp.
Definition abs : float -> float := SFabs.
Definition eqb : float -> float -> bool := SFeqb.
Definition ltb : float -> float -> bool := SFltb.

(** [float(z)] for an integer, rounded to nearest even; an integer too
    large for the format comes out infinite. *)
Definition of_Z (z : Z) : float := binary_normalize prec emax z 0 false.

(** The float a decimal literal [n/d] denotes, for [n] and [d] exactly
    representable: the correctly rounded quotient. *)
Definition lit (n d : Z) : float := div (of_Z n) (of_Z d).

Definition zero : float := S754_zero false.
Definition nan : float := S754_nan.

Definition is_zero (x : float) : bool :=
  match x with S754_zero _ => true | _ => false end.

Definition is_nan (x : float) : bool :=
  match x with S754_nan => true | _ => false end.

Definition is_infinite (x : float) : bool :=
  match x with S754_infinity _ => true | _ => false end.

(** Neither NaN nor infinite. *)
Definition is_finite (x : float) : bool :=
  match x with S754_zero _ | S754_finite _ _ _ => true | _ => false end.

End F64.

(* ===================================================================== *)
(** ** numpy arrays of floats *)
(* ===================================================================== *)

(** One-dimensional [ndarray]s of [float64]. *)
Abbreviation ndarray := (list float).

(** [a[0]] and [a[-1]]: [IndexError] on an empty array. *)
Definition getitem_first (a : ndarray) : result float :=
  match a with
  | [] => Raise (IndexError "index 0 is out of bounds for axis 0 with size 0")
  | x :: _ => Ok x
  end.

Definition getitem_last (a : ndarray) : result float :=
  match List.last (map Some a) None with
  | None => Raise (IndexError "index -1 is out of bounds for axis 0 with size 0")
  | Some x => Ok x
  end.

(** The message of numpy's [ValueError] for two one-dimensional
    operands of lengths [n] and [m]; it ends with a space. *)
Definition broadcast_error (n m : nat) : string :=
  "operands could not be broadcast together with shapes ("
  +:+ pretty n +:+ ",) (" +:+ pretty m +:+ ",) ".

(** An elementwise binary operation on two arrays, with numpy's
    broadcasting of a one-element array; other length mismatches raise
    [ValueError], whose message names the two shapes, left operand
    first. *)
Definition broadcast (op : float -> float -> float) (a b : ndarray) : result ndarray :=
  if (List.length a =? List.length b)%nat then Ok (zip_with op a b)
  else match a, b with
       | [x], _ => Ok (map (op x) b)
       | _, [y] => Ok (map (fun x => op x y) a)
       | _, _ => Raise (ValueError (broadcast_error (List.length a) (List.length b)))
       end.

(* ===================================================================== *)
(** ** analyses/exp_fit_test.py *)
(* ===================================================================== *)

Module ExpFitTest.

(** [scipy.optimize.OptimizeResult], the fields the module reads:
    [x], [fun], [nfev], [success]. *)
Record OptimizeResult (X : Type) : Type := mkOptimizeResult {
  opt_x : X;
  opt_fun : float;
  opt_nfev : Z;
  opt_success : bool;
}.
Arguments mkOptimizeResult {X}.
Arguments opt_x {X}.
Arguments opt_fun {X}.
Arguments opt_nfev {X}.
Arguments opt_success {X}.

(** The signature of [scipy.optimize.minimize(fun, x0, args, jac, method,
    bounds)] with [args] already applied to [fun] and [jac].  A call
    returns a result, converged or not, or lets an exception of a
    callback through. *)
Definition minimizer : Type :=
  forall X : Type,
    (X -> result float) ->            (* fun *)
    X ->                              (* x0 *)
    option (X -> result X) ->         (* jac *)
    option string ->                  (* method *)
    option (list (float * float)) ->  (* bounds *)
    result (OptimizeResult X).

(** The two readings of [time.time()] a call of [fit] makes. *)
Record clock := mkClock { time_start : float; time_stop : float }.

(** Parameter vectors. *)
Record exp_params := ExpParams { p_yoffset : float; p_amp : float; p_tau : float }.

Record psp_params := PspParams {
  q_yoffset : float; q_amp : float; q_rise_time : float; q_decay_tau : float }.

(** The [dict] returned by [ExpFitMethod.fit]. *)
Record exp_fit_result := mkExpFitResult {
  fit : OptimizeResult exp_params;
  yoffset : float;
  amp : float;
  tau : float;
  init_yoffset : float;
  init_amp : float;
  init_tau : float;
  err : float;
  nfev : Z;
  success : bool;
  fit_time : float;
}.

(** The [dict] returned by [PspFitMethod.fit]. *)
Record psp_fit_result := mkPspFitResult {
  psp_fit : OptimizeResult psp_params;
  psp_yoffset : float;
  psp_amp : float;
  psp_rise_time : float;
  psp_decay_tau : float;
  psp_init_yoffset : float;
  psp_init_amp : float;
  psp_init_rise_time : float;
  psp_init_decay_tau : float;
  psp_err : float;
  psp_nfev : Z;
  psp_success : bool;
  psp_fit_time : float;
}.

Section Methods.

(** numpy, scipy and neuroanalysis functions the module calls.  [np.exp]
    is the C library's; [ndarray.sum] and [np.linalg.norm] fix no order
    of additions. *)
Variable np_exp : float -> float.
Variable np_sum : ndarray -> float.
Variable np_linalg_norm : ndarray -> float.
Variable psp_func :
  ndarray -> float -> float -> float -> float -> float -> Z -> result ndarray.
Variable minimize : minimizer.

(** *** ExpFitMethod *)

Record ExpFitMethod := mkExpFitMethod {
  exp_name : string;
  exp_method : option string;
  use_jac : bool;
}.

(** [np.exp(-t / tau)] *)
Definition exp_t_over_tau (tau : float) (t : ndarray) : ndarray :=
  map (fun ti => np_exp (F64.div (F64.opp ti) tau)) t.

(** [yoffset + amp * np.exp(-t / tau)] *)
Definition exp_fn (params : exp_params) (t : ndarray) : ndarray :=
  let '(ExpParams yoffset amp tau) := params in
  map (fun e => F64.add yoffset (F64.mul amp e)) (exp_t_over_tau tau t).

Definition exp_err_fn (params : exp_params) (t y : ndarray) : result float :=
  residual ← broadcast F64.sub y (exp_fn params t);
  Ok (np_linalg_norm residual).

(** [yoff + amp * np.exp(-t/tau) - y], the residual of [exp_jac_fn]. *)
Definition jac_residual (params : exp_params) (t y : ndarray) : result ndarray :=
  broadcast F64.sub (exp_fn params t) y.

(** [np.sqrt(((yoff + amp * np.exp(-t/tau) - y) ** 2).sum())] *)
Definition jac_norm (params : exp_params) (t y : ndarray) : result float :=
  r ← jac_residual params t y;
  Ok (F64.sqrt (np_sum (map (fun x => F64.mul x x) r))).

(** The three numerators, before the division by [norm]. *)
Definition jac_numerators (params : exp_params) (t y : ndarray)
  : result (float * float * float) :=
  let '(ExpParams yoff amp tau) := params in
  let N := Z.of_nat (List.length y) in
  let exp_t_tau := exp_t_over_tau tau t in
  let n_yoff :=
    F64.sub (F64.add (F64.mul (F64.of_Z N) yoff)
                     (np_sum (map (F64.mul amp) exp_t_tau)))
            (np_sum y) in
  r ← broadcast F64.sub (map (fun e => F64.add yoff (F64.mul amp e)) exp_t_tau) y;
  r_e ← broadcast F64.mul r exp_t_tau;
  a_r_e ← broadcast F64.mul (map (F64.mul amp) r) exp_t_tau;
  a_r_e_t ← broadcast F64.mul a_r_e t;
  let tau2 := F64.mul tau tau in
  Ok (n_yoff, np_sum r_e, np_sum (map (fun x => F64.div x tau2) a_r_e_t)).

Definition exp_jac_fn (params : exp_params) (t y : ndarray) : result exp_params :=
  norm ← jac_norm params t y;
  '(n_yoff, n_amp, n_tau) ← jac_numerators params t y;
  let dyoff := F64.div n_yoff norm in
  let damp := F64.div n_amp norm in
  let dtau := F64.div n_tau norm in
  Ok (ExpParams dyoff damp dtau).

(** The initial guess of [ExpFitMethod.fit]. *)
Definition exp_init (y t : ndarray) : result exp_params :=
  yoff ← getitem_last y;
  y0 ← getitem_first y;
  let amp := F64.sub y0 yoff in
  t_last ← getitem_last t;
  t0 ← getitem_first t;
  let tau := F64.sub t_last t0 in
  Ok (ExpParams yoff amp tau).

Definition ExpFitMethod_fit (self : ExpFitMethod) (clk : clock) (y t : ndarray)
  : result exp_fit_result :=
  let start := time_start clk in
  init ← exp_init y t;
  let jac_fn :=
    if use_jac self then Some (fun p => exp_jac_fn p t y) else None in
  fit ← minimize exp_params (fun p => exp_err_fn p t y) init jac_fn
                 (exp_method self) None;
  Ok {| fit := fit;
        yoffset := p_yoffset (opt_x fit);
        amp := p_amp (opt_x fit);
        tau := p_tau (opt_x fit);
        init_yoffset := p_yoffset init;
        init_amp := p_amp init;
        init_tau := p_tau init;
        err := opt_fun fit;
        nfev := opt_nfev fit;
        success := opt_success fit;
        fit_time := F64.sub (time_stop clk) start |}.

(** *** PspFitMethod *)

Record PspFitMethod := mkPspFitMethod {
  psp_name : string;
  psp_method : option string;
}.

Definition psp_fn (params : psp_params) (t : ndarray) : result ndarray :=
  let '(PspParams yoffset amp rise_time decay_tau) := params in
  psp_func t (F64.lit 1 100) yoffset amp rise_time decay_tau 2.

Definition psp_err_fn (params : psp_params) (t y : ndarray) : result float :=
  model ← psp_fn params t;
  residual ← broadcast F64.sub y model;
  Ok (np_linalg_norm residual).

Definition psp_bounds : list (float * float) :=
  [ (F64.of_Z (-1), F64.of_Z 1);
    (F64.of_Z (-1), F64.of_Z 1);
    (F64.lit 1 10000, F64.lit 20 1000);
    (F64.lit 1 1000, F64.lit 200 1000) ].

(** The initial guess of [PspFitMethod.fit]. *)
Definition psp_init (y t : ndarray) : result psp_params :=
  yoff ← getitem_last y;
  y0 ← getitem_first y;
  let amp := F64.sub y0 yoff in
  t_last ← getitem_last t;
  t0 ← getitem_first t;
  let decay_tau := F64.sub t_last t0 in
  let rise_time := F64.div decay_tau (F64.of_Z 3) in
  Ok (PspParams yoff amp rise_time decay_tau).

Definition PspFitMethod_fit (self : PspFitMethod) (clk : clock) (y t : ndarray)
  : result psp_fit_result :=
  let start := time_start clk in
  init ← psp_init y t;
  fit ← minimize psp_params (fun p => psp_err_fn p t y) init None
                 (psp_method self) (Some psp_bounds);
  Ok {| psp_fit := fit;
        psp_yoffset := q_yoffset (opt_x fit);
        psp_amp := q_amp (opt_x fit);
        psp_rise_time := q_rise_time (opt_x fit);
        psp_decay_tau := q_decay_tau (opt_x fit);
        psp_init_yoffset := q_yoffset init;
        psp_init_amp := q_amp init;
        psp_init_rise_time := q_rise_time init;
        psp_init_decay_tau := q_decay_tau init;
        psp_err := opt_fun fit;
        psp_nfev := opt_nfev fit;
        psp_success := opt_success fit;
        psp_fit_time := F64.sub (time_stop clk) start |}.

(** *** The minimizer calls and the returned dictionaries, named *)

(** The results of the two [fit] methods in terms of the minimizer's. *)
Definition exp_result_of (clk : clock) (init : exp_params)
  (res : OptimizeResult exp_params) : exp_fit_result :=
  {| fit := res;
     yoffset := p_yoffset (opt_x res);
     amp := p_amp (opt_x res);
     tau := p_tau (opt_x res);
     init_yoffset := p_yoffset init;
     init_amp := p_amp init;
     init_tau := p_tau init;
     err := opt_fun res;
     nfev := opt_nfev res;
     success := opt_success res;
     fit_time := F64.sub (time_stop clk) (time_start clk) |}.

Definition psp_result_of (clk : clock) (init : psp_params)
  (res : OptimizeResult psp_params) : psp_fit_result :=
  {| psp_fit := res;
     psp_yoffset := q_yoffset (opt_x res);
     psp_amp := q_amp (opt_x res);
     psp_rise_time := q_rise_time (opt_x res);
     psp_decay_tau := q_decay_tau (opt_x res);
     psp_init_yoffset := q_yoffset init;
     psp_init_amp := q_amp init;
     psp_init_rise_time := q_rise_time init;
     psp_init_decay_tau := q_decay_tau init;
     psp_err := opt_fun res;
     psp_nfev := opt_nfev res;
     psp_success := opt_success res;
     psp_fit_time := F64.sub (time_stop clk) (time_start clk) |}.

(** The call [ExpFitMethod.fit] makes to the minimizer from the initial
    guess [init], and the one [PspFitMethod.fit] makes. *)
Definition exp_minimize (self : ExpFitMethod) (y t : ndarray) (init : exp_params)
  : result (OptimizeResult exp_params) :=
  minimize exp_params (fun p => exp_err_fn p t y) init
           (if use_jac self then Some (fun p => exp_jac_fn p t y) else None)
           (exp_method self) None.

Definition psp_minimize (self : PspFitMethod) (y t : ndarray) (init : psp_params)
  : result (OptimizeResult psp_params) :=
  minimize psp_params (fun p => psp_err_fn p t y) init None
           (psp_method self) (Some psp_bounds).

(** *** eval *)

(** [ExpFitMethod.eval] and [PspFitMethod.eval]: the model at the
    parameters a dictionary returned by [fit] holds. *)
Definition ExpFitMethod_eval (res : exp_fit_result) (t : ndarray) : ndarray :=
  let x := ExpParams (yoffset res) (amp res) (tau res) in
  exp_fn x t.

Definition PspFitMethod_eval (res : psp_fit_result) (t : ndarray) : result ndarray :=
  let x := PspParams (psp_yoffset res) (psp_amp res) (psp_rise_time res)
                     (psp_decay_tau res) in
  psp_fn x t.

End Methods.

End ExpFitTest.

(* ===================================================================== *)
(** ** Python values, strings and builtins *)
(* ===================================================================== *)

(** The values met in metadata dictionaries and in rows of the
    morphology source: [None], [bool], [int], [float], [str]. *)
Inductive pyval : Type :=
| VNone
| VBool (b : bool)
| VInt (z : Z)
| VFloat (f : float)
| VStr (s : string).

(** Keys of the morphology source: [int] when read from the Access
    database, [str] when read from the JSON file. *)
Abbreviation pykey := (Z + string)%type.

(** A row of the morphology source: a [dict] from field name to value, in
    insertion order. *)
Abbreviation row := (list (string * pyval)).

(** What Python leaves to the C library or to long algorithms:
    [float(s)] and [int(s)] on a string ([None] is [ValueError]) and
    [repr] of a float. *)
Record builtins := mkBuiltins {
  float_of_string : string -> option float;
  int_of_string : string -> option Z;
  repr_float : float -> string;
}.

Module Py.

(** [sep.join(l)] *)
Fixpoint join (sep : string) (l : list string) : string :=
  match l with
  | [] => ""
  | x :: l' =>
      match l' with
      | [] => x
      | _ :: _ => x +:+ sep +:+ join sep l'
      end
  end.

Definition contains (c : ascii) (s : string) : bool :=
  existsb (Ascii.eqb c) (list_ascii_of_string s).

(** [s.lstrip(chars)]: drops leading characters that occur in [chars]. *)
Fixpoint lstrip (chars : string) (s : string) : string :=
  match s with
  | EmptyString => EmptyString
  | String c s' => if contains c chars then lstrip chars s' else s
  end.

Definition dquote : ascii := ascii_of_nat 34.
Definition squote : ascii := ascii_of_nat 39.
Definition backslash : ascii := ascii_of_nat 92.

Definition hex2 (c : ascii) : string :=
  let n := Z.of_N (N_of_ascii c) in
  String (MD5.hex_digit (Z.shiftr n 4)) (String (MD5.hex_digit (Z.land n 0xf)) EmptyString).

(** One character of [repr(s)] inside the quote [q].  Beyond ASCII,
    [repr] escapes the characters that are not printable: below 256
    these are the controls 128 to 159, the no-break space 160 and the
    soft hyphen 173. *)
Definition repr_char (q c : ascii) : string :=
  let n := N_of_ascii c in
  if Ascii.eqb c q || Ascii.eqb c backslash then String backslash (String c EmptyString)
  else if (n =? 10)%N then String backslash "n"
  else if (n =? 13)%N then String backslash "r"
  else if (n =? 9)%N then String backslash "t"
  else if (n <? 32)%N || (n =? 127)%N then String backslash ("x" +:+ hex2 c)
  else if (n <? 127)%N then String c EmptyString
  else if (n <=? 160)%N || (n =? 173)%N then String backslash ("x" +:+ hex2 c)
  else String c EmptyString.

Fixpoint repr_chars (q : ascii) (s : string) : string :=
  match s with
  | EmptyString => EmptyString
  | String c s' => repr_char q c +:+ repr_chars q s'
  end.

(** [repr(s)] for a string: single quotes unless the string has a single
    quote and no double quote. *)
Definition repr_str (s : string) : string :=
  let q := if contains squote s && negb (contains dquote s) then dquote else squote in
  String q (repr_chars q s +:+ String q EmptyString).

Section Builtins.

Variable py : builtins.

Definition repr (v : pyval) : string :=
  match v with
  | VNone => "None"
  | VBool true => "True"
  | VBool false => "False"
  | VInt z => pretty z
  | VFloat f => repr_float py f
  | VStr s => repr_str s
  end.

(** [str(v)], as [%s] formats it. *)
Definition str (v : pyval) : string :=
  match v with
  | VStr s => s
  | _ => repr v
  end.

(** [repr(d)] for a [dict] with string keys. *)
Definition repr_dict (d : row) : string :=
  "{" +:+ join ", " (map (fun kv => repr_str (fst kv) +:+ ": " +:+ repr (snd kv)) d) +:+ "}".

(** The integer a float truncates to; [None] for NaN and infinities. *)
Definition trunc (f : float) : option Z :=
  match f with
  | S754_zero _ => Some 0
  | S754_finite s m e =>
      let a := if 0 <=? e then Z.pos m * 2 ^ e else Z.pos m / 2 ^ (- e) in
      Some (if s then - a else a)
  | _ => None
  end.

(** [float(v)] *)
Definition float_ (v : pyval) : result float :=
  match v with
  | VNone => Raise (TypeError "float() argument must be a string or a real number, not 'NoneType'")
  | VBool b => Ok (F64.of_Z (if b then 1 else 0))
  | VInt z =>
      let f := F64.of_Z z in
      if F64.is_infinite f then Raise (OverflowError "int too large to convert to float")
      else Ok f
  | VFloat f => Ok f
  | VStr s =>
      match float_of_string py s with
      | Some f => Ok f
      | None => Raise (ValueError ("could not convert string to float: " +:+ repr_str s))
      end
  end.

(** [int(v)] *)
Definition int_ (v : pyval) : result Z :=
  match v with
  | VNone => Raise (TypeError "int() argument must be a string, a bytes-like object or a real number, not 'NoneType'")
  | VBool b => Ok (if b then 1 else 0)
  | VInt z => Ok z
  | VFloat f =>
      match trunc f with
      | Some z => Ok z
      | None =>
          if F64.is_nan f then Raise (ValueError "cannot convert float NaN to integer")
          else Raise (OverflowError "cannot convert float infinity to integer")
      end
  | VStr s =>
      match int_of_string py s with
      | Some z => Ok z
      | None => Raise (ValueError ("invalid literal for int() with base 10: " +:+ repr_str s))
      end
  end.

(** [%d] applied to [v]. *)
Definition format_d (v : pyval) : result string :=
  match v with
  | VBool b => Ok (if b then "1" else "0")
  | VInt z => Ok (pretty z)
  | VFloat f =>
      match trunc f with
      | Some z => Ok (pretty z)
      | None =>
          if F64.is_nan f then Raise (ValueError "cannot convert float NaN to integer")
          else Raise (OverflowError "cannot convert float infinity to integer")
      end
  | VNone => Raise (TypeError "%d format: a real number is required, not NoneType")
  | VStr _ => Raise (TypeError "%d format: a real number is required, not str")
  end.

(** The key a value is looked up under in a [dict] keyed by [int] and
    [str]: [True == 1] and [1.0 == 1] hash alike; [None] and
    non-integral floats match no key. *)
Definition key_of (v : pyval) : option pykey :=
  match v with
  | VNone => None
  | VBool b => Some (inl (if b then 1 else 0))
  | VInt z => Some (inl z)
  | VFloat f =>
      match trunc f with
      | Some z => if F64.eqb (F64.of_Z z) f then Some (inl z) else None
      | None => None
      end
  | VStr s => Some (inr s)
  end.

End Builtins.

(** [x == y] between a string and a value. *)
Definition str_eq (t : string) (v : pyval) : bool :=
  match v with
  | VStr s => String.eqb t s
  | _ => false
  end.

(** [d[k]] and [d.get(k)] on an insertion-ordered [dict]. *)
Fixpoint dict_get {V : Type} (d : list (string * V)) (k : string) : option V :=
  match d with
  | [] => None
  | (k', v) :: d' => if String.eqb k' k then Some v else dict_get d' k
  end.

(** [os.path.join(a, b)] on POSIX. *)
Definition path_join (a b : string) : string :=
  match b with
  | String c _ =>
      if Ascii.eqb c "/" then b
      else match a with
           | EmptyString => b
           | _ => if String.eqb (substring (String.length a - 1) 1 a) "/"
                  then a +:+ b else a +:+ "/" +:+ b
           end
  | EmptyString =>
      match a with
      | EmptyString => EmptyString
      | _ => if String.eqb (substring (String.length a - 1) 1 a) "/"
             then a else a +:+ "/"
      end
  end.

End Py.

(* ===================================================================== *)
(** ** The synphys database: rows and queries *)
(* ===================================================================== *)

(** Dates ([datetime]) as seconds. *)
Abbreviation datetime := Z.

Record Slice := mkSlice {
  slice_id : Z;
  slice_acq_timestamp : float;
}.

Record Cell := mkCell {
  cell_id : Z;                       (* Cell.id *)
  cell_ext_id : Z;                   (* Cell.ext_id *)
  cell_meta : gmap string pyval;     (* Cell.meta *)
  cell_class_nonsynaptic : pyval;
}.

Record Experiment := mkExperiment {
  expt_id : Z;                       (* Experiment.id *)
  expt_ext_id : float;               (* Experiment.ext_id *)
  acq_timestamp : float;
  storage_path : string;
  expt_meta : gmap string pyval;     (* Experiment.meta *)
  cells : list (Z * Cell);           (* Experiment.cells, by ext_id *)
}.

(** A [Morphology] record: the cell it belongs to and the columns set by
    keyword ([pyramidal], [cortical_layer], [morpho_db_hash], and the
    columns of [col_names]); a column not set is NULL. *)
Record Morphology := mkMorphology {
  morphology_cell_id : Z;
  morphology_columns : gmap string pyval;
}.

(** [rec.<column>] *)
Definition column (m : Morphology) (name : string) : pyval :=
  default VNone (morphology_columns m !! name).

(** The tables a session reads. *)
Record database := mkDatabase {
  slice_table : list Slice;
  experiment_table : list Experiment;
  morphology_table : list Morphology;
}.

Module SynphysDatabase.

(** [session.query(self.Slice).filter(self.Slice.acq_timestamp==ts).all()] *)
Definition slices_at (db : database) (ts : float) : list Slice :=
  List.filter (fun s => F64.eqb (slice_acq_timestamp s) ts) (slice_table db).

(** [session.query(self.Experiment).filter(self.Experiment.acq_timestamp==ts).all()] *)
Definition experiments_at (db : database) (ts : float) : list Experiment :=
  List.filter (fun e => F64.eqb (acq_timestamp e) ts) (experiment_table db).

(** [l[0]] *)
Definition first {A : Type} (l : list A) : result A :=
  match l with
  | [] => Raise (IndexError "list index out of range")
  | x :: _ => Ok x
  end.

Definition slice_from_timestamp (db : database) (ts : float) : result Slice :=
  let slices := slices_at db ts in
  if (List.length slices =? 0)%nat then
    Raise (KeyError (Fmt "No slice found for timestamp %0.3f" ts))
  else if (1 <? List.length slices)%nat then
    Raise (KeyError (Fmt "Multiple slices found for timestamp %0.3f" ts))
  else first slices.

(** [abs((expt.acq_timestamp - ts)) < 0.01] *)
Definition close_to (ts : float) (expt : Experiment) : bool :=
  F64.ltb (F64.abs (F64.sub (acq_timestamp expt) ts)) (F64.lit 1 100).

(** The loop over [session.query(self.Experiment).all()] that returns
    the first experiment close to [ts]. *)
Fixpoint scan_close (ts : float) (expts : list Experiment) : option Experiment :=
  match expts with
  | [] => None
  | expt :: rest => if close_to ts expt then Some expt else scan_close ts rest
  end.

Definition experiment_from_timestamp (db : database) (ts : float) : result Experiment :=
  let expts := experiments_at db ts in
  if (List.length expts =? 0)%nat then
    match scan_close ts (experiment_table db) with
    | Some expt => Ok expt
    | None => Raise (KeyError (Fmt "No experiment found for timestamp %0.3f" ts))
    end
  else if (1 <? List.length expts)%nat then
    Raise (RuntimeError (Fmt "Multiple experiments found for timestamp %0.3f" ts))
  else first expts.

(** [session.query(self.Experiment).filter(self.Experiment.ext_id==uid).all()] *)
Definition experiments_with_uid (db : database) (uid : float) : list Experiment :=
  List.filter (fun e => F64.eqb (expt_ext_id e) uid) (experiment_table db).

(** The message is the template with [uid] formatted by its [%s]. *)
Definition experiment_from_uid (db : database) (uid : float) : result Experiment :=
  let expts := experiments_with_uid db uid in
  if (List.length expts =? 0)%nat then
    Raise (KeyError (Fmt "No experiment found for uid %s" uid))
  else if (1 <? List.length expts)%nat then
    Raise (RuntimeError (Fmt "Multiple experiments found for uid %s" uid))
  else first expts.

Definition list_experiments (db : database) : list Experiment :=
  experiment_table db.

End SynphysDatabase.

(* ===================================================================== *)
(** ** Effects: printed lines and the ORM session *)
(* ===================================================================== *)

(** What a call leaves behind: the lines printed, the records handed to
    [session.add], and the cells modified through the ORM (by [Cell.id],
    last state). *)
Record world := mkWorld {
  stdout : list string;
  session_new : list Morphology;
  session_dirty : gmap Z Cell;
}.

Definition empty_world : world := mkWorld [] [] ∅.

(** A computation that may print, touch the session and raise; the
    effects made before an exception stay. *)
Record py (A : Type) : Type := Py { run : world -> result A * world }.
Arguments Py {A} _.
Arguments run {A} _ _.

#[global] Instance py_ret : MRet py := fun A a => Py (fun w => (Ok a, w)).

#[global] Instance py_bind : MBind py :=
  fun A B (k : A -> py B) (m : py A) =>
    Py (fun w =>
          match run m w with
          | (Ok a, w') => run (k a) w'
          | (Raise e, w') => (Raise e, w')
          end).

Definition lift {A : Type} (r : result A) : py A := Py (fun w => (r, w)).

Definition raise {A : Type} (e : exn) : py A := lift (Raise e).

Definition print (line : string) : py unit :=
  Py (fun w => (Ok tt, mkWorld (stdout w ++ [line]) (session_new w) (session_dirty w))).

Definition session_add (m : Morphology) : py unit :=
  Py (fun w => (Ok tt, mkWorld (stdout w) (session_new w ++ [m]) (session_dirty w))).

Definition set_cell (c : Cell) : py unit :=
  Py (fun w => (Ok tt, mkWorld (stdout w) (session_new w) (<[cell_id c := c]> (session_dirty w)))).

(** [for x in l: body(x)] *)
Fixpoint for_each {A : Type} (l : list A) (body : A -> py unit) : py unit :=
  match l with
  | [] => mret tt
  | x :: l' => body x ≫= fun _ => for_each l' body
  end.

(* ===================================================================== *)
(** ** The collaborators of the morphology module *)
(* ===================================================================== *)

(** A cell of a LIMS cluster. *)
Record lims_cell := mkLimsCell { lims_cell_id : option Z }.

(** The result set of the Access query: the column names of
    [cursor_description] and the rows. *)
Record result_set := mkResultSet {
  description : list string;
  fetchall : list (list pyval);
}.

(** Configuration, installed modules, files and services the module
    reaches: [config], [pyodbc], the JSON file, [lims],
    [PipetteMetadata], the experiment module's [finished_jobs] and the
    clock. *)
Record environment := mkEnvironment {
  config_synphys_data : string;
  config_morpho_address : option string;      (* None: no such attribute *)
  config_morpho_json_file : option string;    (* None: no such attribute *)
  pyodbc_installed : bool;
  pyodbc_query : string -> string -> result result_set;
  json_load_open : string -> result (list (string * row));
  lims_cell_layer : pyval -> option string;
  lims_cluster_cells : pyval -> option (list lims_cell);
  pipette_metadata : string -> result (gmap Z (gmap string pyval));
  finished_jobs : list (float * (datetime * pyval));
  datetime_now : datetime;
}.

(* ===================================================================== *)
(** ** aisynphys/pipeline/multipatch/morphology.py *)
(* ===================================================================== *)

Module MorphologyPipelineModule.

(** The ['type'] of a column of [col_names]. *)
Inductive col_type : Type :=
| TStr
| TFloat
| TList (values : list string).

(** [col_names], in the order of the literal: source field, column name,
    type. *)
Definition col_names : list (string * (string * col_type)) :=
  [ ("Qual_Morpho_Type", ("qual_morpho_type", TStr));
    ("dendrite_type", ("dendrite_type", TList ["spiny"; "aspiny"; "sparsely spiny"; "NEI"]));
    ("Apical_truncation_distance", ("apical_trunc_distance", TFloat));
    ("Axon_truncation_distance", ("axon_trunc_distance", TFloat));
    ("Axon origination", ("axon_origin", TList ["soma"; "dendrite"; "unclear"; "NEI"]));
    ("Axon_truncation", ("axon_truncation", TList ["truncated"; "borderline"; "intact"; "unclear"; "NEI"]));
    ("Apical_truncation", ("apical_truncation", TList ["truncated"; "borderline"; "intact"; "unclear"; "NEI"])) ].

(** The morphology source: specimen id to row. *)
Abbreviation morpho_results_t := (gmap pykey row).

(** [d[k] = v] on an insertion-ordered [dict]: an existing key keeps its
    place. *)
Fixpoint dict_set {K V : Type} (eqb : K -> K -> bool) (k : K) (v : V)
  (d : list (K * V)) : list (K * V) :=
  match d with
  | [] => [(k, v)]
  | (k', v') :: d' =>
      if eqb k' k then (k, v) :: d' else (k', v') :: dict_set eqb k v d'
  end.

Section Module.

Variable builtin : builtins.
Variable env : environment.

(** *** import_morpho_db *)

(** [getattr(r, k)] on a row of the result set. *)
Definition getattr (desc : list string) (r : list pyval) (k : string) : result pyval :=
  match Py.dict_get (zip desc r) k with
  | Some v => Ok v
  | None => Raise (AttributeError ("'pyodbc.Row' object has no attribute " +:+ Py.repr_str k))
  end.

(** [{k: getattr(r, k) for k in fields}] *)
Fixpoint row_dict (desc : list string) (r : list pyval) (fields : list string)
  (acc : row) : result row :=
  match fields with
  | [] => Ok acc
  | k :: fields' =>
      v ← getattr desc r k;
      row_dict desc r fields' (dict_set String.eqb k v acc)
  end.

(** [{int(r.cell_specimen_id): {...} for r in results}] *)
Fixpoint rows_dict (desc : list string) (fields : list string)
  (rs : list (list pyval)) (acc : morpho_results_t) : result morpho_results_t :=
  match rs with
  | [] => Ok acc
  | r :: rs' =>
      id ← getattr desc r "cell_specimen_id";
      key ← Py.int_ builtin id;
      d ← row_dict desc r fields [];
      rows_dict desc fields rs' (<[inl key := d]> acc)
  end.

Definition import_morpho_db : result morpho_results_t :=
  if negb (pyodbc_installed env) then
    Raise (ImportError "No module named 'pyodbc'")
  else
    address ← match config_morpho_address env with
              | Some a => Ok a
              | None => Raise (AttributeError "module 'config' has no attribute 'morpho_address'")
              end;
    let cnxn_str := "DRIVER={Microsoft Access Driver (*.mdb, *.accdb)}; DBQ=" +:+ address in
    rs ← pyodbc_query env cnxn_str "select * from MPATCH_CellsofCluster";
    _ ← SynphysDatabase.first (fetchall rs);
    let fields := description rs in
    rows_dict (description rs) fields (fetchall rs) ∅.

(** *** morpho_db *)

Definition morpho_db : result morpho_results_t :=
  match config_morpho_address env with
  | Some _ => import_morpho_db
  | None =>
      file ← match config_morpho_json_file env with
             | Some f => Ok f
             | None => Raise (AttributeError "module 'config' has no attribute 'morpho_json_file'")
             end;
      doc ← json_load_open env file;
      Ok (fold_left (fun (m : morpho_results_t) kv => <[inr (fst kv) := snd kv]> m) doc ∅)
  end.

(** *** create_db_entries *)

(** The hash stored with a record: [hashlib.md5(repr(cell_morpho).encode()).hexdigest()]. *)
Definition stored_hash (cell_morpho : row) : string :=
  MD5.hexdigest (Py.repr_dict builtin cell_morpho).

(** The exception of lines 87 and 92, or the [TypeError] of its [%d]. *)
Definition parse_error (data cell_specimen_id : pyval) (morpho_db_name : string) : exn :=
  match Py.format_d cell_specimen_id with
  | Ok id =>
      Exception_ ("Error parsing morphology annotation " +:+ Py.str builtin data
                  +:+ " for cell " +:+ id +:+ " from column " +:+ morpho_db_name)
  | Raise e => e
  end.

(** The body of the loop over [col_names] below [if data is not None]:
    the value stored for the column. *)
Definition parse_annotation (col : col_type) (data cell_specimen_id : pyval)
  (morpho_db_name : string) : result pyval :=
  match col with
  | TList values =>
      let d := List.filter (fun t => Py.str_eq t data) values in
      if (List.length d =? 1)%nat then
        x ← SynphysDatabase.first d; Ok (VStr x)
      else Raise (parse_error data cell_specimen_id morpho_db_name)
  | TFloat =>
      match Py.float_ builtin data with
      | Ok f => Ok (VFloat f)
      | Raise e =>
          if is_ValueError e
          then Raise (parse_error data cell_specimen_id morpho_db_name)
          else Raise e
      end
  | TStr => Ok data
  end.

(** [for morpho_db_name, result in col_names.items(): ...] *)
Fixpoint parse_columns (cols : list (string * (string * col_type)))
  (cell_morpho : row) (cell_specimen_id : pyval)
  (results : gmap string pyval) : result (gmap string pyval) :=
  match cols with
  | [] => Ok results
  | (morpho_db_name, (col_name, col)) :: cols' =>
      data ← match Py.dict_get cell_morpho morpho_db_name with
             | Some v => Ok v
             | None => Raise (KeyError (Msg morpho_db_name))
             end;
      data ← match data with
             | VNone => Ok VNone
             | _ => parse_annotation col data cell_specimen_id morpho_db_name
             end;
      parse_columns cols' cell_morpho cell_specimen_id (<[col_name := data]> results)
  end.

(** Lines 59-65: the experimenter's description becomes the pyramidal
    flag. *)
Definition pyramidal_of (user_morpho : pyval) : py pyval :=
  match user_morpho with
  | VNone | VStr "" => mret VNone
  | _ =>
      if Py.str_eq "pyr" user_morpho then mret (VBool true)
      else
        print ("Unknown morphology string: " +:+ Py.str builtin user_morpho) ≫= fun _ =>
        mret VNone
  end.

(** [{'spiny': 'ex', 'aspiny': 'in'}.get(dtype, None)] *)
Definition morpho_class_of (dtype : pyval) : pyval :=
  if Py.str_eq "spiny" dtype then VStr "ex"
  else if Py.str_eq "aspiny" dtype then VStr "in"
  else VNone.

(** Lines 74-93: the block under [if cell_morpho is not None], which
    stores the hash and the parsed annotations in [results]. *)
Definition annotate (cell_morpho : option row) (cell_specimen_id : pyval)
  (results : gmap string pyval) : result (gmap string pyval) :=
  match cell_morpho with
  | Some cell_morpho =>
      let morpho_db_hash := stored_hash cell_morpho in
      parse_columns col_names cell_morpho cell_specimen_id
        (<["morpho_db_hash" := VStr morpho_db_hash]> results)
  | None => Ok results
  end.

(** Lines 52-57: the cortical layer of the cell. *)
Definition cortical_layer_of (cell_specimen_id : pyval) : pyval :=
  match cell_specimen_id with
  | VNone => VNone
  | _ =>
      match lims_cell_layer env cell_specimen_id with
      | Some layer => VStr (Py.lstrip "Layer" layer)
      | None => VNone
      end
  end.

(** Lines 67-72: the [results] dictionary before the annotations. *)
Definition new_results (pyramidal cortical_layer : pyval) : gmap string pyval :=
  <["morpho_db_hash" := VNone]>
    (<["cortical_layer" := cortical_layer]> (<["pyramidal" := pyramidal]> ∅)).

(** A column of [col_names] that the loop of lines 77-93 passes: the
    row has the field, and it is [None] or parses. *)
Definition column_passes (cell_morpho : row) (cell_specimen_id : pyval)
  (c : string * (string * col_type)) : Prop :=
  exists data,
    Py.dict_get cell_morpho (fst c) = Some data
    /\ (data = VNone
        \/ exists v, parse_annotation (snd (snd c)) data cell_specimen_id (fst c) = Ok v).

(** The body of the loop over [expt.cells.items()]. *)
Definition import_cell (morpho_results : morpho_results_t)
  (pipettes : gmap Z (gmap string pyval)) (cell : Cell) : py unit :=
  pip ← lift (match pipettes !! cell_ext_id cell with
              | Some p => Ok p
              | None => Raise (KeyError (Msg (pretty (cell_ext_id cell))))
              end);
  let user_morpho := default VNone (pip !! "morphology") in
  let cell_specimen_id := default VNone (cell_meta cell !! "lims_specimen_id") in
  let cell_morpho := Py.key_of cell_specimen_id ≫= fun k => morpho_results !! k in
  let cortical_layer := cortical_layer_of cell_specimen_id in
  pyramidal ← pyramidal_of user_morpho;
  let results := new_results pyramidal cortical_layer in
  results ← lift (annotate cell_morpho cell_specimen_id results);
  let morphology := mkMorphology (cell_id cell) results in
  let dtype := default VNone (results !! "dendrite_type") in
  let morpho_class := morpho_class_of dtype in
  let cell_meta' := <["morpho_cell_class" := morpho_class]> (cell_meta cell) in
  let cell1 := mkCell (cell_id cell) (cell_ext_id cell) cell_meta'
                      (cell_class_nonsynaptic cell) in
  _ ← set_cell cell1;
  transgenic_class ← lift (match cell_meta' !! "transgenic_cell_class" with
                           | Some v => Ok v
                           | None => Raise (KeyError (Msg "transgenic_cell_class"))
                           end);
  _ ← match transgenic_class, morpho_class with
      | VNone, _ =>
          set_cell (mkCell (cell_id cell) (cell_ext_id cell) cell_meta' morpho_class)
      | _, VStr c =>
          if negb (Py.str_eq c transgenic_class)
          then set_cell (mkCell (cell_id cell) (cell_ext_id cell) cell_meta' VNone)
          else mret tt
      | _, _ => mret tt
      end;
  session_add morphology.

Definition create_db_entries (db : database) (job_id : float) : py unit :=
  expt ← lift (SynphysDatabase.experiment_from_timestamp db job_id);
  morpho_results ← lift morpho_db;
  let path := Py.path_join (config_synphys_data env) (storage_path expt) in
  pip_meta ← lift (pipette_metadata env path);
  for_each (cells expt) (fun item => import_cell morpho_results pip_meta (snd item)).

(** *** ready_jobs *)

(** Truth value of a value, as [filter(None, ...)] tests it. *)
Definition truthy (v : pyval) : bool :=
  match v with
  | VNone => false
  | VBool b => b
  | VInt z => negb (z =? 0)
  | VFloat f => negb (F64.is_zero f)
  | VStr s => negb (String.eqb s "")
  end.

(** What iterating [morpho_results.get(cell.id, [None])] yields: the
    keys of the row when there is one, else the single [None]. *)
Definition iterate (r : option row) : list pyval :=
  match r with
  | Some d => map (fun kv => VStr (fst kv)) d
  | None => [VNone]
  end.

(** [sep.join(items)]: every item has to be a string. *)
Fixpoint strings_of (items : list pyval) : result (list string) :=
  match items with
  | [] => Ok []
  | VStr s :: items' => l ← strings_of items'; Ok (s :: l)
  | _ :: _ => Raise (TypeError "sequence item: expected str instance")
  end.

(** Line 160: [hashlib.md5((';'.join(filter(None,
    morpho_results.get(cell.id, [None])))).encode()).hexdigest()]. *)
Definition recomputed_hash (morpho_results : morpho_results_t) (id : Z) : result string :=
  items ← strings_of (List.filter truthy (iterate (morpho_results !! (inl id : pykey))));
  Ok (MD5.hexdigest (Py.join ";" items)).

(** [db.Cell.meta.info]: on the class, [Cell.meta] is the column, and
    its [info] is the column's own dictionary of annotations, which is
    empty; it is not the metadata of any cell. *)
Definition Cell_meta_info : row := [].

(** Line 161: [session.query(db.Morphology).join(db.Cell).filter(
    db.Cell.meta.info.get('lims_specimen_id') == str(cell.id)).all()].
    The argument of [filter] is evaluated by Python before the query
    sees it: [.get] on the column's [info] gives [None], and [None ==
    str(cell.id)] is the constant [False].  The query is the join of the
    records with their cells filtered by that constant, so it has no
    row, whatever the database holds. *)
Definition morphology_of_specimen (db : database) (specimen : string) : list Morphology :=
  let criterion :=
    Py.str_eq specimen (default VNone (Py.dict_get Cell_meta_info "lims_specimen_id")) in
  flat_map
    (fun m =>
       flat_map
         (fun c => if (cell_id c =? morphology_cell_id m) && criterion then [m] else [])
         (flat_map (fun e => map snd (cells e)) (experiment_table db)))
    (morphology_table db).

(** One turn of the loop over [cluster_cells]: the comparison appended
    to [cell_hash_compare], if any. *)
Definition compare_cell (db : database) (morpho_results : morpho_results_t)
  (cell : lims_cell) : result (option bool) :=
  match lims_cell_id cell with
  | None => Ok None
  | Some id =>
      morpho_db_hash ← recomputed_hash morpho_results id;
      let cell_morpho_rec := morphology_of_specimen db (pretty id) in
      if (List.length cell_morpho_rec =? 1)%nat then
        rec ← SynphysDatabase.first cell_morpho_rec;
        let cell_rec_hash := column rec "morpho_db_hash" in
        Ok (Some (Py.str_eq morpho_db_hash cell_rec_hash))
      else Ok (Some false)
  end.

Fixpoint cell_hash_compare (db : database) (morpho_results : morpho_results_t)
  (cluster_cells : list lims_cell) : result (list bool) :=
  match cluster_cells with
  | [] => Ok []
  | cell :: rest =>
      c ← compare_cell db morpho_results cell;
      l ← cell_hash_compare db morpho_results rest;
      Ok (match c with Some b => b :: l | None => l end)
  end.

(** The [OrderedDict] of ready jobs: job id to ['dep_time']. *)
Abbreviation ready_t := (list (float * datetime)).

(** The body of the loop over [expts.items()]. *)
Definition ready_job (db : database) (morpho_results : morpho_results_t)
  (ready : ready_t) (job : float * (datetime * pyval)) : result ready_t :=
  let '(expt_id, (expt_mtime, success)) := job in
  match success with
  | VBool true =>
      expt ← SynphysDatabase.first
               (List.filter (fun e => F64.eqb (expt_ext_id e) expt_id) (experiment_table db));
      let ready := dict_set F64.eqb expt_id expt_mtime ready in
      match default VNone (expt_meta expt !! "lims_cell_cluster_id") with
      | VNone => Ok ready
      | cluster =>
          match lims_cluster_cells env cluster with
          | None => Ok ready
          | Some cluster_cells =>
              compare ← cell_hash_compare db morpho_results cluster_cells;
              if negb (forallb id compare)
              then Ok (dict_set F64.eqb expt_id (datetime_now env) ready)
              else Ok ready
          end
      end
  | _ => Ok ready
  end.

Fixpoint ready_loop (db : database) (morpho_results : morpho_results_t)
  (expts : list (float * (datetime * pyval))) (ready : ready_t) : result ready_t :=
  match expts with
  | [] => Ok ready
  | job :: rest =>
      ready' ← ready_job db morpho_results ready job;
      ready_loop db morpho_results rest ready'
  end.

Definition ready_jobs (db : database) : py ready_t :=
  let expts := finished_jobs env in
  let ready : ready_t := [] in
  match morpho_db with
  | Raise exc =>
      if is_ImportError exc then
        print ("Skipping morphology: "
               +:+ match exc with ImportError msg => msg | _ => "" end) ≫= fun _ =>
        mret ready
      else raise exc
  | Ok morpho_results => lift (ready_loop db morpho_results expts ready)
  end.

(** *** Notions used to state properties of [ready_job] *)

(** A cell with an id that has no stored record, or several, or one
    whose hash is not the recomputed one. *)
Definition cell_stale (db : database) (morpho_results : morpho_results_t)
  (cell : lims_cell) : Prop :=
  exists id,
    lims_cell_id cell = Some id
    /\ (List.length (morphology_of_specimen db (pretty id)) <> 1%nat
        \/ exists rec h,
             morphology_of_specimen db (pretty id) = [rec]
             /\ recomputed_hash morpho_results id = Ok h
             /\ Py.str_eq h (column rec "morpho_db_hash") = false).

(** An entry of the result for a finished job: the job's id with the
    job's dependency time or with now. *)
Definition entry_of (entry : float * datetime) (job : float * (datetime * pyval)) : Prop :=
  fst entry = fst job
  /\ (snd entry = fst (snd job) \/ snd entry = datetime_now env).

End Module.

(** Notions used to state properties of [ready_jobs]: a finished job
    whose [success] is [True], and a list of jobs whose ids are pairwise
    different (as the keys of a dictionary are). *)
Definition successful (job : float * (datetime * pyval)) : bool :=
  match snd (snd job) with
  | VBool true => true
  | _ => false
  end.

Fixpoint distinct_ids (jobs : list (float * (datetime * pyval))) : bool :=
  match jobs with
  | [] => true
  | job :: rest =>
      forallb (fun job' => negb (F64.eqb (fst job) (fst job'))) rest && distinct_ids rest
  end.

(** [session.commit()]: the records added become rows, and the modified
    cells replace their rows. *)
Definition commit (w : world) (db : database) : database :=
  mkDatabase
    (slice_table db)
    (map (fun e =>
            mkExperiment (expt_id e) (expt_ext_id e) (acq_timestamp e) (storage_path e)
              (expt_meta e)
              (map (fun kc => (fst kc, default (snd kc) (session_dirty w !! cell_id (snd kc))))
                   (cells e)))
         (experiment_table db))
    (morphology_table db ++ session_new w).

End MorphologyPipelineModule.

(* ===================================================================== *)
(** ** The specification's wording of the content hash *)
(* ===================================================================== *)

Module Spec.

(** The content hash as the specification words it: the hash of the
    pipe-joined, null-filtered field values of the record. *)
Definition content_hash (builtin : builtins) (r : row) : string :=
  MD5.hexdigest
    (Py.join "|"
       (map (Py.str builtin)
            (List.filter (fun v => match v with VNone => false | _ => true end)
                         (map snd r)))).

End Spec.

(* ===================================================================== *)
(** ** Concrete collaborators for running the code *)
(* ===================================================================== *)

Module Examples.

(** Floats of small decimal literals. *)
Definition f (n d : Z) : float := F64.lit n d.

(** Two experiments acquired at the same time, and a third one. *)
Definition expt_a : Experiment := mkExperiment 1 (f 15 1) (f 15 1) "a" ∅ [].
Definition expt_b : Experiment := mkExperiment 2 (f 15 1) (f 15 1) "b" ∅ [].
Definition expt_c : Experiment := mkExperiment 3 (f 10 1) (f 10 1) "c" ∅ [].
Definition expt_d : Experiment := mkExperiment 4 (f 10005 1000) (f 10005 1000) "d" ∅ [].

Definition db_twins : database :=
  mkDatabase [mkSlice 1 (f 7 1); mkSlice 2 (f 7 1)] [expt_a; expt_b; expt_c] [].

Definition db_near : database := mkDatabase [] [expt_a; expt_c; expt_d] [].

(** Stand-ins for the numerical collaborators.  [exp_taylor] is the
    Taylor polynomial of degree 30 evaluated in binary64, exact at zero
    and at the infinities; [sum_seq] adds from left to right, as numpy
    does for fewer than eight elements; [norm2] is the square root of
    the sum of squares. *)
Fixpoint taylor (n : nat) (x term acc : float) (k : Z) : float :=
  match n with
  | O => acc
  | S n' =>
      let term' := F64.div (F64.mul term x) (F64.of_Z k) in
      taylor n' x term' (F64.add acc term') (k + 1)
  end.

Definition exp_taylor (x : float) : float :=
  match x with
  | S754_nan => S754_nan
  | S754_infinity false => S754_infinity false
  | S754_infinity true => F64.zero
  | _ => taylor 30 x (F64.of_Z 1) (F64.of_Z 1) 1
  end.

Definition sum_seq (a : ndarray) : float := fold_left F64.add a F64.zero.

Definition norm2 (a : ndarray) : float :=
  F64.sqrt (sum_seq (map (fun x => F64.mul x x) a)).

(** The PSP template before its onset at [xoffset]: the baseline. *)
Definition psp_baseline (x : ndarray) (xoffset yoffset amp rise_time decay_tau : float)
  (rise_power : Z) : result ndarray :=
  Ok (map (fun _ => yoffset) x).

(** A minimizer that evaluates the objective at [x0] and stops: it
    reports no convergence and returns [x0]. *)
Definition one_shot_minimizer : ExpFitTest.minimizer :=
  fun X fn x0 jac method bounds =>
    v ← fn x0;
    Ok (ExpFitTest.mkOptimizeResult x0 v 1 false).

Definition exp_method_bfgs : ExpFitTest.ExpFitMethod :=
  ExpFitTest.mkExpFitMethod "bfgs" (Some "BFGS") true.

Definition psp_method_default : ExpFitTest.PspFitMethod :=
  ExpFitTest.mkPspFitMethod "psp" None.

Definition clock_1s : ExpFitTest.clock := ExpFitTest.mkClock (f 100 1) (f 101 1).

(** Samples of a decay from 0.75 to 0.5 before the PSP onset. *)
Definition y_decay : ndarray := [f 3 4; f 5 8; f 1 2].
Definition t_decay : ndarray := [F64.zero; f 1 256; f 1 128].

(** A sample the parameters (0.5, 0.25, 1) fit exactly. *)
Definition perfect_params : ExpFitTest.exp_params :=
  ExpFitTest.ExpParams (f 1 2) (f 1 4) (f 1 1).
Definition t_perfect : ndarray := [F64.zero].
Definition y_perfect : ndarray := [f 3 4].

(** Builtins enough to run the examples: [float] and [int] accept plain
    decimal integers only, and [repr] prints integral floats. *)
Fixpoint digits (s : string) (acc : Z) : option Z :=
  match s with
  | EmptyString => Some acc
  | String c s' =>
      let n := Z.of_N (N_of_ascii c) in
      if (48 <=? n) && (n <=? 57) then digits s' (10 * acc + (n - 48)) else None
  end.

Definition int_of_digits (s : string) : option Z :=
  match s with
  | EmptyString => None
  | String "-" (String c s') => Z.opp <$> digits (String c s') 0
  | String "-" EmptyString => None
  | _ => digits s 0
  end.

Definition repr_integral (x : float) : string :=
  match Py.trunc x with
  | Some z => if F64.eqb (F64.of_Z z) x then pretty z +:+ ".0" else "<float>"
  | None =>
      match x with
      | S754_infinity false => "inf"
      | S754_infinity true => "-inf"
      | _ => "nan"
      end
  end.

Definition plain_builtins : builtins :=
  mkBuiltins (fun s => F64.of_Z <$> int_of_digits s) int_of_digits repr_integral.

(** The morphology table: three cells, the second with a dendrite type
    outside the enumeration. *)
Definition morpho_fields : list string :=
  [ "cell_specimen_id"; "Qual_Morpho_Type"; "dendrite_type";
    "Apical_truncation_distance"; "Axon_truncation_distance";
    "Axon origination"; "Axon_truncation"; "Apical_truncation" ].

Definition morpho_row_101 : list pyval :=
  [ VInt 101; VStr "pyramidal"; VStr "spiny"; VStr "12"; VNone;
    VStr "soma"; VStr "intact"; VStr "truncated" ].

Definition morpho_row_102 : list pyval :=
  [ VInt 102; VStr "basket"; VStr "bushy"; VNone; VNone;
    VStr "soma"; VStr "intact"; VNone ].

Definition morpho_row_103 : list pyval :=
  [ VInt 103; VNone; VStr "aspiny"; VNone; VStr "40";
    VStr "dendrite"; VStr "borderline"; VNone ].

Definition pipettes_3 : gmap Z (gmap string pyval) :=
  <[1 := {[ "morphology" := VStr "pyr" ]}]>
    (<[2 := {[ "morphology" := VStr "basket" ]}]>
       (<[3 := (∅ : gmap string pyval)]> ∅)).

Definition meta_of (specimen : Z) : gmap string pyval :=
  <["lims_specimen_id" := VInt specimen]> {[ "transgenic_cell_class" := VNone ]}.

Definition cell_1 : Cell := mkCell 11 1 (meta_of 101) VNone.
Definition cell_2 : Cell := mkCell 12 2 (meta_of 102) VNone.
Definition cell_3 : Cell := mkCell 13 3 (meta_of 103) VNone.

Definition job_ts : float := f 1521667891153 1000.

(** An experiment with the one good cell, and one with all three. *)
Definition expt_one : Experiment :=
  mkExperiment 1 job_ts job_ts "expt1" {[ "lims_cell_cluster_id" := VInt 7 ]}
    [(1, cell_1)].

Definition expt_three : Experiment :=
  mkExperiment 1 job_ts job_ts "expt1" {[ "lims_cell_cluster_id" := VInt 7 ]}
    [(1, cell_1); (2, cell_2); (3, cell_3)].

Definition db_one : database := mkDatabase [] [expt_one] [].
Definition db_three : database := mkDatabase [] [expt_three] [].

Definition layer_of (specimen : pyval) : option string :=
  match specimen with
  | VInt 101 => Some "Layer2/3"
  | VInt 103 => Some "Layer5"
  | _ => None
  end.

Definition cluster_7 (cluster : pyval) : option (list lims_cell) :=
  match cluster with
  | VInt 7 => Some [mkLimsCell (Some 101)]
  | _ => None
  end.

(** The Access database is reachable and holds [rows]. *)
Definition env_access (rows : list (list pyval)) : environment :=
  mkEnvironment "/data" (Some "morpho.accdb") None true
    (fun _ _ => Ok (mkResultSet morpho_fields rows))
    (fun _ => Raise (OSError "No such file or directory"))
    layer_of cluster_7
    (fun _ => Ok pipettes_3)
    [(job_ts, (1000, VBool true))]
    5000.

(** The same configuration with [pyodbc] not installed, and with the
    database unreachable. *)
Definition env_no_driver : environment :=
  mkEnvironment "/data" (Some "morpho.accdb") None false
    (fun _ _ => Ok (mkResultSet morpho_fields [morpho_row_101]))
    (fun _ => Raise (OSError "No such file or directory"))
    layer_of cluster_7
    (fun _ => Ok pipettes_3)
    [(job_ts, (1000, VBool true))]
    5000.

Definition env_unreachable : environment :=
  mkEnvironment "/data" (Some "morpho.accdb") None true
    (fun _ _ => Raise (PyodbcError "unable to open database file"))
    (fun _ => Raise (OSError "No such file or directory"))
    layer_of cluster_7
    (fun _ => Ok pipettes_3)
    [(job_ts, (1000, VBool true))]
    5000.

(** No Access database configured, and the JSON file cannot be opened. *)
Definition env_no_file : environment :=
  mkEnvironment "/data" None (Some "morpho.json") true
    (fun _ _ => Raise (PyodbcError "unable to open database file"))
    (fun _ => Raise (OSError "No such file or directory"))
    layer_of cluster_7
    (fun _ => Ok pipettes_3)
    [(job_ts, (1000, VBool true))]
    5000.

(** The source as [import_morpho_db] reads it when the table holds the
    first row only. *)
Definition row_101 : row := zip morpho_fields morpho_row_101.

Definition source_101 : MorphologyPipelineModule.morpho_results_t :=
  {[ (inl 101 : pykey) := row_101 ]}.

Definition row_102 : row := zip morpho_fields morpho_row_102.
Definition row_103 : row := zip morpho_fields morpho_row_103.

(** The source when the table holds the three rows. *)
Definition source_three : MorphologyPipelineModule.morpho_results_t :=
  <[(inl 103 : pykey) := row_103]>
    (<[(inl 102 : pykey) := row_102]> {[ (inl 101 : pykey) := row_101 ]}).

Definition env_one : environment := env_access [morpho_row_101].

Definition env_three : environment :=
  env_access [morpho_row_101; morpho_row_102; morpho_row_103].


(** The one-cell experiment with a stored record that carries the hash
    [ready_jobs] recomputes for specimen 101, and an experiment without
    cluster. *)
Definition db_fresh : database :=
  mkDatabase [] [expt_one; expt_c]
    [mkMorphology 11 {[ "morpho_db_hash" := VStr "6671e5a88d74be2d0d092c6f10824bdc" ]}].

(** The Access configuration with other finished jobs: one failed, one
    successful, one with an error text. *)
Definition env_with_jobs (jobs : list (float * (datetime * pyval))) : environment :=
  mkEnvironment "/data" (Some "morpho.accdb") None true
    (fun _ _ => Ok (mkResultSet morpho_fields [morpho_row_101]))
    (fun _ => Raise (OSError "No such file or directory"))
    layer_of cluster_7
    (fun _ => Ok pipettes_3)
    jobs
    5000.

Definition jobs_mixed : list (float * (datetime * pyval)) :=
  [ (f 15 1, (900, VBool false));
    (job_ts, (1000, VBool true));
    (f 7 1, (800, VStr "error"));
    (f 10 1, (950, VBool true)) ].

Definition jobs_three : list (float * (datetime * pyval)) :=
  [ (f 15 1, (800, VBool false));
    (job_ts, (1000, VBool true));
    (f 10 1, (950, VBool true)) ].

(** A cell whose metadata lacks [transgenic_cell_class], and a cell
    whose specimen the source does not hold. *)
Definition cell_unclassed : Cell :=
  mkCell 14 3 {[ "lims_specimen_id" := VInt 103 ]} VNone.


(** A source row without the [dendrite_type] field. *)
Definition row_short : row :=
  zip ["cell_specimen_id"; "Qual_Morpho_Type"] [VInt 104; VStr "stellate"].

(** A text with a no-break space and an e-acute: [a], U+00A0, [b],
    U+00E9. *)
Definition latin_text : string :=
  "a" +:+ String (ascii_of_nat 160) ("b" +:+ String (ascii_of_nat 233) "").

(** No Access database configured; the JSON file holds the first row
    under the key its document gives it, a string. *)
Definition env_json : environment :=
  mkEnvironment "/data" None (Some "morpho.json") true
    (fun _ _ => Raise (PyodbcError "unable to open database file"))
    (fun _ => Ok [("101", row_101)])
    layer_of cluster_7
    (fun _ => Ok pipettes_3)
    [(job_ts, (1000, VBool true))]
    5000.

End Examples.

(* ===================================================================== *)
(** ** Checks of the Python model against known values *)
(* ===================================================================== *)

(** MD5 test vectors (RFC 1321, and a message of two blocks). *)
Example md5_empty : MD5.hexdigest "" = "d41d8cd98f00b204e9800998ecf8427e".
Proof. vm_compute. reflexivity. Qed.

Example md5_abc : MD5.hexdigest "abc" = "900150983cd24fb0d6963f7d28e17f72".
Proof. vm_compute. reflexivity. Qed.

Example md5_two_blocks :
  MD5.hexdigest "aaaaaaaaaaaaaaaaaaaaaaaaaaaaaaaaaaaaaaaaaaaaaaaaaaaaaaaa"
  = "3b0c8ac703f828b04c6c197006d17218".
Proof. vm_compute. reflexivity. Qed.

(** The literal [0.01] is 0x3F847AE147AE147B. *)
Example lit_0_01 : F64.lit 1 100 = S754_finite false 5764607523034235 (-59).
Proof. vm_compute. reflexivity. Qed.

Example lit_3 : F64.of_Z 3 = S754_finite false 6755399441055744 (-51).
Proof. vm_compute. reflexivity. Qed.

(** [repr] of a dictionary, and [lstrip]. *)
Example repr_dict_example (py : builtins) :
  Py.repr_dict py [("a", VStr "x"); ("n", VInt 12); ("q", VStr "it's"); ("z", VNone)]
  = "{'a': 'x', 'n': 12, 'q': " +:+ String Py.dquote ("it's" +:+ String Py.dquote ", 'z': None}").
Proof. vm_compute. reflexivity. Qed.

(** Beyond ASCII: [repr] escapes the no-break space (160) and keeps the
    printable e-acute (233), which [encode] turns into two bytes; the
    digests are those of [hashlib]. *)
Example repr_latin1 :
  Py.repr_str (Examples.latin_text)
  = "'a" +:+ String Py.backslash ("xa0b" +:+ String (ascii_of_nat 233) "'").
Proof. vm_compute. reflexivity. Qed.

Example md5_latin1 :
  MD5.hexdigest (String (ascii_of_nat 233) (";" +:+ String (ascii_of_nat 160) ""))
  = "92e9cc0204505498dc1351bd171048bb".
Proof. vm_compute. reflexivity. Qed.

Example stored_hash_latin1 :
  MorphologyPipelineModule.stored_hash Examples.plain_builtins
    [("Qual_Morpho_Type", VStr Examples.latin_text)]
  = "69aece8218b113647be43b213eb1f3e4".
Proof. vm_compute. reflexivity. Qed.

Example lstrip_layer : Py.lstrip "Layer" "Layer2/3" = "2/3".
Proof. reflexivity. Qed.

Example lstrip_layer_eats : Py.lstrip "Layer" "Layer ear5" = " ear5".
Proof. reflexivity. Qed.

(* ===================================================================== *)
(** ** Timestamp lookups *)
(* ===================================================================== *)

Section TimestampLookups.

Import SynphysDatabase.

Variable db : database.
Variable ts : float.

Lemma scan_close_first pre e post :
  (forall x, In x pre -> close_to ts x = false) ->
  close_to ts e = true ->
  scan_close ts (pre ++ e :: post) = Some e.
Proof.
  induction pre as [|x pre IH]; intros Hpre He; simpl.
  - now rewrite He.
  - rewrite (Hpre x) by now left.
    apply IH; [|exact He]. intros y Hy. apply Hpre. now right.
Qed.

Lemma scan_close_none l :
  scan_close ts l = None <-> (forall x, In x l -> close_to ts x = false).
Proof.
  induction l as [|x l IH]; simpl.
  - split; [intros _ y []|reflexivity].
  - destruct (close_to ts x) eqn:Hx.
    + split; [discriminate|]. intros H. specialize (H x (or_introl eq_refl)). congruence.
    + rewrite IH. split.
      * intros H y [<-|Hy]; [exact Hx|now apply H].
      * intros H y Hy. apply H. now right.
Qed.

Lemma scan_close_some l e :
  scan_close ts l = Some e -> In e l /\ close_to ts e = true.
Proof.
  induction l as [|x l IH]; simpl; [discriminate|].
  destruct (close_to ts x) eqn:Hx.
  - intros [= <-]. split; [now left|exact Hx].
  - intros H. destruct (IH H) as [Hin Hc]. split; [now right|exact Hc].
Qed.

(** C9. When more than one experiment matches the timestamp,
    [experiment_from_timestamp] raises the "Multiple experiments found"
    error, and when more than one slice matches it,
    [slice_from_timestamp] raises the "Multiple slices found" error:
    neither returns one of the matching records. *)
Theorem ambiguous_timestamp_raises :
  ((1 < List.length (experiments_at db ts))%nat ->
   experiment_from_timestamp db ts
   = Raise (RuntimeError (Fmt "Multiple experiments found for timestamp %0.3f" ts)))
  /\
  ((1 < List.length (slices_at db ts))%nat ->
   slice_from_timestamp db ts
   = Raise (KeyError (Fmt "Multiple slices found for timestamp %0.3f" ts))).
Proof.
  split; intros H.
  - unfold experiment_from_timestamp.
    destruct (experiments_at db ts) as [|a [|b l]]; simpl in *; try lia. reflexivity.
  - unfold slice_from_timestamp.
    destruct (slices_at db ts) as [|a [|b l]]; simpl in *; try lia. reflexivity.
Qed.

(** C10. When no experiment matches the timestamp exactly,
    [experiment_from_timestamp] returns the first experiment of the table
    whose [acq_timestamp] is within 0.01 of it, and raises the "No
    experiment found" error exactly when no experiment is that close. *)
Theorem fallback_scan_first_close :
  experiments_at db ts = [] ->
  (forall pre e post,
      experiment_table db = pre ++ e :: post ->
      (forall x, In x pre -> close_to ts x = false) ->
      close_to ts e = true ->
      experiment_from_timestamp db ts = Ok e)
  /\
  (forall e, experiment_from_timestamp db ts = Ok e ->
             In e (experiment_table db) /\ close_to ts e = true)
  /\
  ((forall x, In x (experiment_table db) -> close_to ts x = false) <->
   experiment_from_timestamp db ts
   = Raise (KeyError (Fmt "No experiment found for timestamp %0.3f" ts)))
  /\
  (forall e, raises (experiment_from_timestamp db ts) = true ->
             In e (experiment_table db) -> close_to ts e = false).
Proof.
  intros Hnone. unfold experiment_from_timestamp. rewrite Hnone. simpl.
  repeat split.
  - intros pre e post Htab Hpre He. rewrite Htab.
    now rewrite (scan_close_first pre e post Hpre He).
  - destruct (scan_close ts (experiment_table db)) eqn:Hs; [|discriminate].
    injection H as <-. now apply scan_close_some in Hs.
  - destruct (scan_close ts (experiment_table db)) eqn:Hs; [|discriminate].
    injection H as <-. now apply scan_close_some in Hs.
  - intros H. apply scan_close_none in H. now rewrite H.
  - intros H. apply scan_close_none.
    destruct (scan_close ts (experiment_table db)); [discriminate|reflexivity].
  - intros e Hr Hin.
    destruct (scan_close ts (experiment_table db)) eqn:Hs; [discriminate|].
    now apply (proj1 (scan_close_none _) Hs).
Qed.

End TimestampLookups.

(** [close_to] is the test of the source: the absolute difference,
    computed in binary64, is below the float of [0.01]. *)
Lemma close_to_spec ts e :
  SynphysDatabase.close_to ts e
  = SFltb (SFabs (SFsub 53 1024 (acq_timestamp e) ts))
          (S754_finite false 5764607523034235 (-59)).
Proof. reflexivity. Qed.

Lemma ambiguous_timestamp_raises_witness :
  SynphysDatabase.experiment_from_timestamp Examples.db_twins (Examples.f 15 1)
  = Raise (RuntimeError (Fmt "Multiple experiments found for timestamp %0.3f" (Examples.f 15 1)))
  /\
  SynphysDatabase.slice_from_timestamp Examples.db_twins (Examples.f 7 1)
  = Raise (KeyError (Fmt "Multiple slices found for timestamp %0.3f" (Examples.f 7 1))).
Proof.
  split.
  - apply (proj1 (ambiguous_timestamp_raises Examples.db_twins (Examples.f 15 1))).
    vm_compute. lia.
  - apply (proj2 (ambiguous_timestamp_raises Examples.db_twins (Examples.f 7 1))).
    vm_compute. lia.
Defined.

Lemma fallback_scan_first_close_witness :
  SynphysDatabase.experiment_from_timestamp Examples.db_near (Examples.f 10004 1000)
  = Ok Examples.expt_c.
Proof.
  refine (proj1 (fallback_scan_first_close Examples.db_near (Examples.f 10004 1000) _)
                [Examples.expt_a] Examples.expt_c [Examples.expt_d] _ _ _).
  - vm_compute. reflexivity.
  - reflexivity.
  - intros x [<-|[]]. vm_compute. reflexivity.
  - vm_compute. reflexivity.
Defined.

(* ===================================================================== *)
(** ** Waveform fits *)
(* ===================================================================== *)

Section ArrayLemmas.

Lemma getitem_first_head (a : ndarray) x : head a = Some x -> getitem_first a = Ok x.
Proof. destruct a; simpl; congruence. Qed.

Lemma getitem_last_last (a : ndarray) x : last a = Some x -> getitem_last a = Ok x.
Proof.
  unfold getitem_last. induction a as [|y a IH]; simpl; [discriminate|].
  destruct a as [|z a]; simpl in *; [congruence|exact IH].
Qed.

Lemma getitem_first_nil : getitem_first [] = Raise (IndexError "index 0 is out of bounds for axis 0 with size 0").
Proof. reflexivity. Qed.

(** A broadcast result combines again with any array as long as the
    left operand of the first broadcast. *)
Lemma broadcast_again (op op' : float -> float -> float) (a b r r1 a' : ndarray) :
  broadcast op a b = Ok r ->
  List.length a' = List.length a ->
  List.length r1 = List.length r ->
  exists r', broadcast op' r1 a' = Ok r' /\ List.length r' = List.length r.
Proof.
  unfold broadcast. intros Hb Ha Hr.
  destruct (List.length a =? List.length b)%nat eqn:Heq.
  - apply Nat.eqb_eq in Heq. injection Hb as <-.
    rewrite length_zip_with in Hr.
    assert (Hl : List.length r1 = List.length a') by lia.
    apply Nat.eqb_eq in Hl. rewrite Hl. eexists. split; [reflexivity|].
    rewrite !length_zip_with. apply Nat.eqb_eq in Hl. lia.
  - destruct a as [|x [|x' a]].
    + destruct b as [|y [|y' b]]; try discriminate. injection Hb as <-.
      simpl in *. destruct a'; [|discriminate]. destruct r1; [|discriminate].
      simpl. eexists. split; reflexivity.
    + injection Hb as <-. rewrite length_map in Hr. simpl in Ha.
      destruct a' as [|y [|y' a']]; try discriminate.
      destruct (List.length r1 =? List.length [y])%nat eqn:Hl.
      * eexists. split; [reflexivity|]. apply Nat.eqb_eq in Hl.
        rewrite length_zip_with, length_map. simpl in *. lia.
      * simpl in Hl. destruct r1 as [|u [|u' r1]]; simpl in *; try discriminate.
        -- eexists. split; [reflexivity|]. now rewrite length_map.
        -- eexists. split; [reflexivity|]. simpl. rewrite !length_map. exact Hr.
    + destruct b as [|y [|y' b]]; try discriminate. injection Hb as <-.
      simpl in Hr, Ha. rewrite length_map in Hr.
      assert (Hl : List.length r1 = List.length a') by lia.
      apply Nat.eqb_eq in Hl. rewrite Hl. eexists. split; [reflexivity|].
      rewrite length_zip_with. simpl. rewrite length_map.
      apply Nat.eqb_eq in Hl. lia.
Qed.

(** A quotient by a zero is NaN or infinite. *)
Lemma div_zero_not_finite (x norm : float) :
  F64.is_zero norm = true -> F64.is_finite (F64.div x norm) = false.
Proof. destruct norm; try discriminate. intros _. now destruct x. Qed.

Lemma div_zero_by_zero (x norm : float) :
  F64.is_zero x = true -> F64.is_zero norm = true -> F64.div x norm = F64.nan.
Proof. destruct norm, x; try discriminate. reflexivity. Qed.

End ArrayLemmas.

Section FitTheorems.

Import ExpFitTest.

Variable np_exp : float -> float.
Variable np_sum : ndarray -> float.
Variable np_linalg_norm : ndarray -> float.
Variable psp_func :
  ndarray -> float -> float -> float -> float -> float -> Z -> result ndarray.
Variable minimize : minimizer.

Lemma jac_numerators_ok params t y norm :
  jac_norm np_exp np_sum params t y = Ok norm ->
  exists n, jac_numerators np_exp np_sum params t y = Ok n.
Proof.
  unfold jac_norm, jac_residual, jac_numerators, exp_fn.
  destruct params as [yoff amp tau].
  set (model := map _ (exp_t_over_tau np_exp tau t)).
  destruct (broadcast F64.sub model y) as [r|e] eqn:Hr; [intros _|discriminate].
  assert (Hlen : List.length (exp_t_over_tau np_exp tau t) = List.length model).
  { unfold model. now rewrite length_map. }
  destruct (broadcast_again F64.sub F64.mul model y r r _ Hr Hlen eq_refl)
    as (r_e & Hre & _).
  assert (Hlen2 : List.length (map (F64.mul amp) r) = List.length r) by apply length_map.
  destruct (broadcast_again F64.sub F64.mul model y r _ _ Hr Hlen Hlen2)
    as (a_r_e & Hare & Hl3).
  assert (Hlen3 : List.length t = List.length model).
  { unfold model, exp_t_over_tau. now rewrite !length_map. }
  destruct (broadcast_again F64.sub F64.mul model y r a_r_e t Hr Hlen3 Hl3)
    as (a_r_e_t & Haret & _).
  simpl. rewrite Hre. simpl. rewrite Hare. simpl. rewrite Haret. simpl.
  eexists. reflexivity.
Qed.

(** C3 (as the code has it). [exp_jac_fn] has no guard on the norm: when
    the residual norm it computes is zero, it still returns the three
    quotients by that norm, so every component of the returned gradient
    is NaN or infinite and none is zero; no exception is raised. *)
Theorem exp_jac_fn_zero_norm_not_guarded params t y norm :
  jac_norm np_exp np_sum params t y = Ok norm ->
  F64.is_zero norm = true ->
  exists g,
    exp_jac_fn np_exp np_sum params t y = Ok g
    /\ F64.is_finite (p_yoffset g) = false
    /\ F64.is_finite (p_amp g) = false
    /\ F64.is_finite (p_tau g) = false.
Proof.
  intros Hnorm Hzero.
  destruct (jac_numerators_ok params t y norm Hnorm) as ([[ny na] nt] & Hnum).
  unfold exp_jac_fn. rewrite Hnorm. simpl. rewrite Hnum. simpl.
  eexists. split; [reflexivity|]. simpl.
  repeat split; now apply div_zero_not_finite.
Qed.

Lemma exp_init_nonempty y t y_first y_last t_first t_last :
  head y = Some y_first -> last y = Some y_last ->
  head t = Some t_first -> last t = Some t_last ->
  exp_init y t = Ok (ExpParams y_last (F64.sub y_first y_last) (F64.sub t_last t_first)).
Proof.
  intros Hy0 Hy1 Ht0 Ht1. unfold exp_init.
  rewrite (getitem_last_last _ _ Hy1). simpl.
  rewrite (getitem_first_head _ _ Hy0). simpl.
  rewrite (getitem_last_last _ _ Ht1). simpl.
  rewrite (getitem_first_head _ _ Ht0). reflexivity.
Qed.

Lemma psp_init_nonempty y t y_first y_last t_first t_last :
  head y = Some y_first -> last y = Some y_last ->
  head t = Some t_first -> last t = Some t_last ->
  psp_init y t
  = Ok (PspParams y_last (F64.sub y_first y_last)
          (F64.div (F64.sub t_last t_first) (F64.of_Z 3)) (F64.sub t_last t_first)).
Proof.
  intros Hy0 Hy1 Ht0 Ht1. unfold psp_init.
  rewrite (getitem_last_last _ _ Hy1). simpl.
  rewrite (getitem_first_head _ _ Hy0). simpl.
  rewrite (getitem_last_last _ _ Ht1). simpl.
  rewrite (getitem_first_head _ _ Ht0). reflexivity.
Qed.

Lemma exp_fit_nonempty (self : ExpFitMethod) clk y t y_first y_last t_first t_last :
  head y = Some y_first -> last y = Some y_last ->
  head t = Some t_first -> last t = Some t_last ->
  let init := ExpParams y_last (F64.sub y_first y_last) (F64.sub t_last t_first) in
  ExpFitMethod_fit np_exp np_sum np_linalg_norm minimize self clk y t
  = match exp_minimize np_exp np_sum np_linalg_norm minimize self y t init with
    | Ok res => Ok (exp_result_of clk init res)
    | Raise e => Raise e
    end.
Proof.
  intros Hy0 Hy1 Ht0 Ht1 init. unfold ExpFitMethod_fit.
  rewrite (exp_init_nonempty _ _ _ _ _ _ Hy0 Hy1 Ht0 Ht1). reflexivity.
Qed.

Lemma psp_fit_nonempty (pself : PspFitMethod) clk y t y_first y_last t_first t_last :
  head y = Some y_first -> last y = Some y_last ->
  head t = Some t_first -> last t = Some t_last ->
  let init := PspParams y_last (F64.sub y_first y_last)
                (F64.div (F64.sub t_last t_first) (F64.of_Z 3))
                (F64.sub t_last t_first) in
  PspFitMethod_fit np_linalg_norm psp_func minimize pself clk y t
  = match psp_minimize np_linalg_norm psp_func minimize pself y t init with
    | Ok res => Ok (psp_result_of clk init res)
    | Raise e => Raise e
    end.
Proof.
  intros Hy0 Hy1 Ht0 Ht1 init. unfold PspFitMethod_fit.
  rewrite (psp_init_nonempty _ _ _ _ _ _ Hy0 Hy1 Ht0 Ht1). reflexivity.
Qed.

(** C5. For non-empty [y] and [t], with first and last elements as
    named, both [fit] methods call the minimizer from the initial guess
    yOffset0 = last y, amplitude0 = first y - last y, and tau0 (for the
    PSP model decayTau0) = last t - first t, riseTime0 = decayTau0 / 3;
    the result returned reports the same values in its initial-guess
    fields. *)
Theorem fit_initial_guess (self : ExpFitMethod) (pself : PspFitMethod) clk
  y t y_first y_last t_first t_last :
  head y = Some y_first -> last y = Some y_last ->
  head t = Some t_first -> last t = Some t_last ->
  let yoff0 := y_last in
  let amp0 := F64.sub y_first y_last in
  let tau0 := F64.sub t_last t_first in
  let rise0 := F64.div tau0 (F64.of_Z 3) in
  (ExpFitMethod_fit np_exp np_sum np_linalg_norm minimize self clk y t
   = match exp_minimize np_exp np_sum np_linalg_norm minimize self y t
             (ExpParams yoff0 amp0 tau0) with
     | Ok res => Ok (exp_result_of clk (ExpParams yoff0 amp0 tau0) res)
     | Raise e => Raise e
     end)
  /\
  (PspFitMethod_fit np_linalg_norm psp_func minimize pself clk y t
   = match psp_minimize np_linalg_norm psp_func minimize pself y t
             (PspParams yoff0 amp0 rise0 tau0) with
     | Ok res => Ok (psp_result_of clk (PspParams yoff0 amp0 rise0 tau0) res)
     | Raise e => Raise e
     end)
  /\
  (forall r, ExpFitMethod_fit np_exp np_sum np_linalg_norm minimize self clk y t = Ok r ->
             init_yoffset r = yoff0 /\ init_amp r = amp0 /\ init_tau r = tau0)
  /\
  (forall r, PspFitMethod_fit np_linalg_norm psp_func minimize pself clk y t = Ok r ->
             psp_init_yoffset r = yoff0 /\ psp_init_amp r = amp0
             /\ psp_init_rise_time r = rise0 /\ psp_init_decay_tau r = tau0).
Proof.
  intros Hy0 Hy1 Ht0 Ht1 yoff0 amp0 tau0 rise0.
  pose proof (exp_fit_nonempty self clk y t _ _ _ _ Hy0 Hy1 Ht0 Ht1) as He.
  pose proof (psp_fit_nonempty pself clk y t _ _ _ _ Hy0 Hy1 Ht0 Ht1) as Hp.
  cbv zeta in He, Hp. fold yoff0 amp0 tau0 in He, Hp. fold rise0 in Hp.
  split; [exact He|]. split; [exact Hp|]. split.
  - intros r Hr. rewrite He in Hr.
    destruct (exp_minimize _ _ _ _ self y t _); [|discriminate].
    injection Hr as <-. auto.
  - intros r Hr. rewrite Hp in Hr.
    destruct (psp_minimize _ _ _ pself y t _); [|discriminate].
    injection Hr as <-. auto.
Qed.

(** Both [fit] methods read [y[-1]], [y[0]], [t[-1]] and [t[0]] before
    anything else: an empty [y] or [t] makes them fail there. *)
Lemma init_empty_raises (y t : ndarray) :
  y = [] \/ t = [] ->
  exp_init y t = Raise (IndexError "index -1 is out of bounds for axis 0 with size 0")
  /\ psp_init y t = Raise (IndexError "index -1 is out of bounds for axis 0 with size 0").
Proof.
  intros H. unfold exp_init, psp_init.
  destruct y as [|y0 y]; [split; reflexivity|].
  destruct H as [H| ->]; [discriminate|].
  destruct (last (y0 :: y)) as [y1|] eqn:Hy1; [|apply last_None in Hy1; discriminate].
  rewrite (getitem_last_last _ _ Hy1). split; reflexivity.
Qed.

(** C4 (as the code has it). For non-empty [y] and [t], whenever the
    minimizer call returns a result, converged or not, [fit] returns a
    result whose [success] is the minimizer's flag and whose parameters,
    [err] and [nfev] are the minimizer's [x], [fun] and [nfev]; this
    holds for [ExpFitMethod] and for [PspFitMethod].  When [y] or [t] is
    empty, both [fit] methods raise [IndexError], whatever the
    minimizer. *)
Theorem fit_returns_minimizer_outcome (self : ExpFitMethod) (pself : PspFitMethod) clk y t :
  (y <> [] -> t <> [] ->
   (exists init,
       exp_init y t = Ok init /\
       forall res,
         exp_minimize np_exp np_sum np_linalg_norm minimize self y t init = Ok res ->
         exists r,
           ExpFitMethod_fit np_exp np_sum np_linalg_norm minimize self clk y t = Ok r
           /\ success r = opt_success res
           /\ ExpParams (yoffset r) (amp r) (tau r) = opt_x res
           /\ err r = opt_fun res
           /\ nfev r = opt_nfev res)
   /\
   (exists init,
       psp_init y t = Ok init /\
       forall res,
         psp_minimize np_linalg_norm psp_func minimize pself y t init = Ok res ->
         exists r,
           PspFitMethod_fit np_linalg_norm psp_func minimize pself clk y t = Ok r
           /\ psp_success r = opt_success res
           /\ PspParams (psp_yoffset r) (psp_amp r) (psp_rise_time r) (psp_decay_tau r)
              = opt_x res
           /\ psp_err r = opt_fun res
           /\ psp_nfev r = opt_nfev res))
  /\
  (y = [] \/ t = [] ->
   ExpFitMethod_fit np_exp np_sum np_linalg_norm minimize self clk y t
   = Raise (IndexError "index -1 is out of bounds for axis 0 with size 0")
   /\ PspFitMethod_fit np_linalg_norm psp_func minimize pself clk y t
      = Raise (IndexError "index -1 is out of bounds for axis 0 with size 0")).
Proof.
  split.
  - intros Hy Ht.
    destruct (head y) as [y0|] eqn:Hy0; [|destruct y; [congruence|discriminate]].
    destruct (head t) as [t0|] eqn:Ht0; [|destruct t; [congruence|discriminate]].
    destruct (last y) as [y1|] eqn:Hy1; [|apply last_None in Hy1; congruence].
    destruct (last t) as [t1|] eqn:Ht1; [|apply last_None in Ht1; congruence].
    pose proof (exp_fit_nonempty self clk y t _ _ _ _ Hy0 Hy1 Ht0 Ht1) as He.
    pose proof (psp_fit_nonempty pself clk y t _ _ _ _ Hy0 Hy1 Ht0 Ht1) as Hp.
    cbv zeta in He, Hp.
    split.
    + eexists. split; [apply (exp_init_nonempty _ _ _ _ _ _ Hy0 Hy1 Ht0 Ht1)|].
      intros res Hres. rewrite He, Hres. eexists. split; [reflexivity|].
      simpl. destruct res as [[a b c] ? ? ?]. auto.
    + eexists. split; [apply (psp_init_nonempty _ _ _ _ _ _ Hy0 Hy1 Ht0 Ht1)|].
      intros res Hres. rewrite Hp, Hres. eexists. split; [reflexivity|].
      simpl. destruct res as [[a b c d] ? ? ?]. auto.
  - intros H. destruct (init_empty_raises y t H) as [He Hp].
    unfold ExpFitMethod_fit, PspFitMethod_fit. rewrite He, Hp. split; reflexivity.
Qed.

End FitTheorems.

Section FitExamples.

Import ExpFitTest Examples.

(** [perfect_params] fit the sample exactly: the objective is zero. *)
Example perfect_fit_error :
  exp_err_fn exp_taylor norm2 perfect_params t_perfect y_perfect = Ok F64.zero.
Proof. vm_compute. reflexivity. Qed.

(** C3 (as the spec states it) fails: at a perfect fit the norm is zero
    and the gradient returned is (NaN, NaN, NaN), not the zero vector. *)
Lemma exp_jac_fn_perfect_fit_is_nan :
  jac_norm exp_taylor sum_seq perfect_params t_perfect y_perfect = Ok F64.zero
  /\ exp_jac_fn exp_taylor sum_seq perfect_params t_perfect y_perfect
     = Ok (ExpParams F64.nan F64.nan F64.nan).
Proof. split; vm_compute; reflexivity. Qed.

Lemma exp_jac_fn_zero_norm_not_guarded_witness :
  exists g,
    exp_jac_fn exp_taylor sum_seq perfect_params t_perfect y_perfect = Ok g
    /\ F64.is_finite (p_yoffset g) = false
    /\ F64.is_finite (p_amp g) = false
    /\ F64.is_finite (p_tau g) = false.
Proof.
  apply (exp_jac_fn_zero_norm_not_guarded exp_taylor sum_seq
           perfect_params t_perfect y_perfect F64.zero).
  - vm_compute. reflexivity.
  - reflexivity.
Defined.

(** C4 (as the spec states it) fails: on an empty [y], and on an empty
    [t], both [fit] methods raise [IndexError]. *)
Lemma fit_empty_raises :
  ExpFitMethod_fit exp_taylor sum_seq norm2 one_shot_minimizer exp_method_bfgs
    clock_1s [] t_decay
  = Raise (IndexError "index -1 is out of bounds for axis 0 with size 0")
  /\ PspFitMethod_fit norm2 psp_baseline one_shot_minimizer psp_method_default
       clock_1s [] t_decay
     = Raise (IndexError "index -1 is out of bounds for axis 0 with size 0")
  /\ ExpFitMethod_fit exp_taylor sum_seq norm2 one_shot_minimizer exp_method_bfgs
       clock_1s y_decay []
     = Raise (IndexError "index -1 is out of bounds for axis 0 with size 0")
  /\ PspFitMethod_fit norm2 psp_baseline one_shot_minimizer psp_method_default
       clock_1s y_decay []
     = Raise (IndexError "index -1 is out of bounds for axis 0 with size 0").
Proof. repeat split; reflexivity. Qed.

Lemma fit_returns_minimizer_outcome_witness :
  (exists r,
      ExpFitMethod_fit exp_taylor sum_seq norm2 one_shot_minimizer exp_method_bfgs
        clock_1s y_decay t_decay = Ok r
      /\ success r = false)
  /\
  (exists r,
      PspFitMethod_fit norm2 psp_baseline one_shot_minimizer psp_method_default
        clock_1s y_decay t_decay = Ok r
      /\ psp_success r = false)
  /\
  ExpFitMethod_fit exp_taylor sum_seq norm2 one_shot_minimizer exp_method_bfgs
    clock_1s y_decay []
  = Raise (IndexError "index -1 is out of bounds for axis 0 with size 0")
  /\
  PspFitMethod_fit norm2 psp_baseline one_shot_minimizer psp_method_default
    clock_1s [] []
  = Raise (IndexError "index -1 is out of bounds for axis 0 with size 0").
Proof.
  destruct (proj1 (fit_returns_minimizer_outcome exp_taylor sum_seq norm2 psp_baseline
                     one_shot_minimizer exp_method_bfgs psp_method_default clock_1s
                     y_decay t_decay))
    as [(init & Hinit & He) (pinit & Hpinit & Hp)]; [discriminate|discriminate|].
  vm_compute in Hinit, Hpinit.
  injection Hinit as <-. injection Hpinit as <-.
  split; [|split; [|split]].
  - edestruct He as (r & Hr & Hs & _); [vm_compute; reflexivity|].
    exists r. split; [exact Hr|exact Hs].
  - edestruct Hp as (r & Hr & Hs & _); [vm_compute; reflexivity|].
    exists r. split; [exact Hr|exact Hs].
  - apply (proj2 (fit_returns_minimizer_outcome exp_taylor sum_seq norm2 psp_baseline
                    one_shot_minimizer exp_method_bfgs psp_method_default clock_1s
                    y_decay [])).
    right. reflexivity.
  - apply (proj2 (fit_returns_minimizer_outcome exp_taylor sum_seq norm2 psp_baseline
                    one_shot_minimizer exp_method_bfgs psp_method_default clock_1s
                    [] [])).
    left. reflexivity.
Defined.

Lemma fit_initial_guess_witness :
  ExpFitMethod_fit exp_taylor sum_seq norm2 one_shot_minimizer exp_method_bfgs
    clock_1s y_decay t_decay
  = match exp_minimize exp_taylor sum_seq norm2 one_shot_minimizer exp_method_bfgs
            y_decay t_decay
            (ExpParams (f 1 2) (F64.sub (f 3 4) (f 1 2)) (F64.sub (f 1 128) F64.zero)) with
    | Ok res =>
        Ok (exp_result_of clock_1s
              (ExpParams (f 1 2) (F64.sub (f 3 4) (f 1 2)) (F64.sub (f 1 128) F64.zero)) res)
    | Raise e => Raise e
    end.
Proof.
  exact (proj1 (fit_initial_guess exp_taylor sum_seq norm2 psp_baseline
                  one_shot_minimizer exp_method_bfgs psp_method_default clock_1s
                  y_decay t_decay (f 3 4) (f 1 2) F64.zero (f 1 128)
                  eq_refl eq_refl eq_refl eq_refl)).
Defined.

End FitExamples.

(* ===================================================================== *)
(** ** Morphology: job freshness *)
(* ===================================================================== *)

Section Freshness.

Import MorphologyPipelineModule.

Variable builtin : builtins.
Variable env : environment.

Lemma strings_of_keys (keys : list string) :
  strings_of (List.filter truthy (map VStr keys))
  = Ok (List.filter (fun s => negb (String.eqb s "")) keys).
Proof.
  induction keys as [|k keys IH]; [reflexivity|].
  simpl. destruct (negb (String.eqb k "")); simpl.
  - rewrite IH. reflexivity.
  - exact IH.
Qed.

(** C6 (as the code has it). The hash [ready_jobs] computes for a record
    is the MD5 hex digest of the semicolon-joined, empty-filtered strings
    that iterating the record yields (its field names); a cell absent
    from the source hashes the empty string. *)
Theorem recomputed_hash_semicolon_join (morpho_results : morpho_results_t) (id : Z) :
  recomputed_hash morpho_results id
  = Ok (MD5.hexdigest
          (Py.join ";"
             (List.filter (fun s => negb (String.eqb s ""))
                (match morpho_results !! (inl id : pykey) with
                 | Some d => map fst d
                 | None => []
                 end))))
  /\
  (match morpho_results !! (inl id : pykey) with
   | Some _ => True
   | None => recomputed_hash morpho_results id = Ok "d41d8cd98f00b204e9800998ecf8427e"
   end).
Proof.
  unfold recomputed_hash, iterate.
  destruct (morpho_results !! (inl id : pykey)) as [d|]; (split; [|try exact I]).
  - replace (map (fun kv : string * pyval => VStr (fst kv)) d)
      with (map VStr (map fst d)) by (rewrite map_map; reflexivity).
    rewrite strings_of_keys. reflexivity.
  - reflexivity.
  - vm_compute. reflexivity.
Qed.

(** The timestamp [ready_job] records once the comparisons are made:
    the dependency time when all of them hold, else now. *)
Lemma ready_job_timestamp (db : database) (morpho_results : morpho_results_t)
  ready expt_id expt_mtime expt cluster cluster_cells compare :
  SynphysDatabase.first
    (List.filter (fun e => F64.eqb (expt_ext_id e) expt_id) (experiment_table db)) = Ok expt ->
  expt_meta expt !! "lims_cell_cluster_id" = Some cluster ->
  cluster <> VNone ->
  lims_cluster_cells env cluster = Some cluster_cells ->
  cell_hash_compare db morpho_results cluster_cells = Ok compare ->
  ready_job env db morpho_results ready (expt_id, (expt_mtime, VBool true))
  = Ok (if forallb id compare
        then dict_set F64.eqb expt_id expt_mtime ready
        else dict_set F64.eqb expt_id (datetime_now env)
               (dict_set F64.eqb expt_id expt_mtime ready)).
Proof.
  intros Hexpt Hmeta Hcl Hcells Hcmp. unfold ready_job.
  rewrite Hexpt. simpl. rewrite Hmeta. simpl.
  destruct cluster; try congruence; rewrite Hcells, Hcmp; simpl;
    destruct (forallb id compare); reflexivity.
Qed.

(** C2 (as the code has it). When the morphology source fails with
    [ImportError] (the driver module is missing), [ready_jobs] prints
    "Skipping morphology: ..." and returns an empty ordered map without
    raising.  Any other failure of the source (the database unreachable,
    the flat file unreadable) is not caught: [ready_jobs] raises it. *)
Theorem ready_jobs_source_unavailable (db : database) (w : world) :
  (forall msg,
      morpho_db builtin env = Raise (ImportError msg) ->
      run (ready_jobs builtin env db) w
      = (Ok [], mkWorld (stdout w ++ ["Skipping morphology: " +:+ msg])
                        (session_new w) (session_dirty w)))
  /\
  (forall e,
      morpho_db builtin env = Raise e ->
      is_ImportError e = false ->
      run (ready_jobs builtin env db) w = (Raise e, w))
  /\
  (forall address,
      config_morpho_address env = Some address ->
      pyodbc_installed env = false ->
      morpho_db builtin env = Raise (ImportError "No module named 'pyodbc'"))
  /\
  (forall address e,
      config_morpho_address env = Some address ->
      pyodbc_installed env = true ->
      pyodbc_query env
        ("DRIVER={Microsoft Access Driver (*.mdb, *.accdb)}; DBQ=" +:+ address)
        "select * from MPATCH_CellsofCluster" = Raise e ->
      morpho_db builtin env = Raise e)
  /\
  (forall file e,
      config_morpho_address env = None ->
      config_morpho_json_file env = Some file ->
      json_load_open env file = Raise e ->
      morpho_db builtin env = Raise e).
Proof.
  repeat split.
  - intros msg H. unfold ready_jobs. rewrite H. reflexivity.
  - intros e H He. unfold ready_jobs. rewrite H, He. reflexivity.
  - intros a Ha Hp. unfold morpho_db, import_morpho_db. now rewrite Ha, Hp.
  - intros a e Ha Hp Hq. unfold morpho_db, import_morpho_db.
    rewrite Ha, Hp. simpl. now rewrite Hq.
  - intros file e Ha Hf Hj. unfold morpho_db. rewrite Ha, Hf. simpl. now rewrite Hj.
Qed.

End Freshness.

Section FreshnessExamples.

Import MorphologyPipelineModule Examples.

(** C6 (as the spec states it) fails: for the first row of the table the
    hash of [ready_jobs] is that of the semicolon-joined field names, not
    that of the pipe-joined field values. *)
Lemma recomputed_hash_not_of_values :
  recomputed_hash source_101 101 = Ok "6671e5a88d74be2d0d092c6f10824bdc"
  /\ Spec.content_hash plain_builtins row_101 = "5b6129b3e1ec5d96331bda37d0fdda8c"
  /\ MD5.hexdigest
       "cell_specimen_id;Qual_Morpho_Type;dendrite_type;Apical_truncation_distance;Axon_truncation_distance;Axon origination;Axon_truncation;Apical_truncation"
     = "6671e5a88d74be2d0d092c6f10824bdc"
  /\ MD5.hexdigest "101|pyramidal|spiny|12|soma|intact|truncated"
     = "5b6129b3e1ec5d96331bda37d0fdda8c".
Proof. repeat split; vm_compute; reflexivity. Qed.

(** C2 (as the spec states it) fails: with the database unreachable, and
    with the flat file unreadable, [ready_jobs] raises. *)
Lemma ready_jobs_unreachable_raises :
  run (ready_jobs plain_builtins env_unreachable db_one) empty_world
  = (Raise (PyodbcError "unable to open database file"), empty_world)
  /\ run (ready_jobs plain_builtins env_no_file db_one) empty_world
     = (Raise (OSError "No such file or directory"), empty_world).
Proof. split; vm_compute; reflexivity. Qed.

Lemma ready_jobs_source_unavailable_witness :
  run (ready_jobs plain_builtins env_no_driver db_one) empty_world
  = (Ok [], mkWorld ["Skipping morphology: No module named 'pyodbc'"] [] ∅).
Proof.
  refine (proj1 (ready_jobs_source_unavailable plain_builtins env_no_driver db_one
                   empty_world) "No module named 'pyodbc'" _).
  refine (proj1 (proj2 (proj2 (ready_jobs_source_unavailable plain_builtins
                                 env_no_driver db_one empty_world)))
                "morpho.accdb" _ _); reflexivity.
Defined.

(** C1: the code at an unchanged source.  The experiment is imported
    from the one-row table and committed; [ready_jobs] then runs against
    the same table.  The hash stored at import (of the [repr] of the
    row) differs from the hash recomputed (of the joined field names),
    and the job's timestamp is moved from the dependency time 1000 to
    now, 5000.  (The stored record is not even read: the query of line
    161 finds no row.) *)
Theorem unchanged_source_is_bumped :
  let env := env_one in
  let imported := run (create_db_entries plain_builtins env db_one job_ts) empty_world in
  let db1 := commit (snd imported) db_one in
  fst imported = Ok tt
  /\ morpho_db plain_builtins env = Ok source_101
  /\ map (fun m => column m "morpho_db_hash") (morphology_table db1)
     = [VStr "3ec0f0706f0075609aca6fe0a986c807"]
  /\ stored_hash plain_builtins row_101 = "3ec0f0706f0075609aca6fe0a986c807"
  /\ recomputed_hash source_101 101 = Ok "6671e5a88d74be2d0d092c6f10824bdc"
  /\ finished_jobs env = [(job_ts, (1000, VBool true))]
  /\ fst (run (ready_jobs plain_builtins env db1) empty_world) = Ok [(job_ts, 5000)].
Proof. repeat split; vm_compute; reflexivity. Qed.

End FreshnessExamples.

(* ===================================================================== *)
(** ** Morphology: the import of an experiment's cells *)
(* ===================================================================== *)

Section CellImport.

Import MorphologyPipelineModule.

Variable builtin : builtins.
Variable env : environment.

Lemma run_bind {A B : Type} (m : py A) (k : A -> py B) (w : world) :
  run (m ≫= k) w
  = match run m w with
    | (Ok a, w') => run (k a) w'
    | (Raise e, w') => (Raise e, w')
    end.
Proof. reflexivity. Qed.

(** *** The pyramidal flag *)




(** [pyramidal_of] returns, and touches nothing but the printed lines. *)
Lemma pyramidal_of_returns um w :
  exists flag lines,
    run (pyramidal_of builtin um) w
    = (Ok flag, mkWorld (stdout w ++ lines) (session_new w) (session_dirty w)).
Proof.
  unfold pyramidal_of.
  destruct um as [| | | |[|c s]];
    try (exists VNone, []; rewrite app_nil_r; now destruct w);
    try (eexists _, [_]; reflexivity).
  destruct (Py.str_eq "pyr" (VStr (String c s))).
  - exists (VBool true), []. rewrite app_nil_r. now destruct w.
  - eexists _, [_]. reflexivity.
Qed.

(** *** The annotations *)

(** The loop over the columns writes the columns it names only. *)
Lemma parse_columns_other cols cell_morpho sid results results' (k : string) :
  Forall (fun c => fst (snd c) <> k) cols ->
  parse_columns builtin cols cell_morpho sid results = Ok results' ->
  results' !! k = results !! k.
Proof.
  revert results. induction cols as [|[name [col_name col]] cols IH];
    intros results Hk H; simpl in H.
  - now injection H as <-.
  - inversion Hk as [|? ? Hne Hrest]; subst. simpl in Hne.
    destruct (Py.dict_get cell_morpho name) as [data|]; [|discriminate]. simpl in H.
    destruct (match data with
              | VNone => Ok VNone
              | _ => parse_annotation builtin col data sid name
              end) as [v|e]; [|discriminate].
    simpl in H. rewrite (IH _ Hrest H). now apply lookup_insert_ne.
Qed.

(** The loop raises the error of the first column that does not parse. *)
Lemma parse_columns_first_bad pre name col_name col post cell_morpho sid results data e :
  Forall (column_passes builtin cell_morpho sid) pre ->
  Py.dict_get cell_morpho name = Some data ->
  data <> VNone ->
  parse_annotation builtin col data sid name = Raise e ->
  parse_columns builtin (pre ++ (name, (col_name, col)) :: post) cell_morpho sid results
  = Raise e.
Proof.
  intros Hpre Hget Hnone Hbad. revert results.
  induction Hpre as [|[n [cn c]] pre (d & Hd & Hok) _ IH]; intros results; simpl.
  - rewrite Hget. simpl. destruct data; try congruence; now rewrite Hbad.
  - simpl in Hd, Hok. rewrite Hd. simpl.
    destruct Hok as [-> | (v & Hv)]; simpl; [apply IH|].
    destruct d; simpl; try apply IH; rewrite Hv; simpl; apply IH.
Qed.



(** *** One cell *)

(** [import_cell] after the pyramidal flag is known: an exception of the
    annotations leaves the session as it was; a return has added exactly
    one record, built from the annotated [results]. *)
Lemma import_cell_outcome mr pip cell p w flag w1 :
  pip !! cell_ext_id cell = Some p ->
  run (pyramidal_of builtin (default VNone (p !! "morphology"))) w = (Ok flag, w1) ->
  let sid := default VNone (cell_meta cell !! "lims_specimen_id") in
  let noted :=
    annotate builtin (Py.key_of sid ≫= fun k => mr !! k) sid
             (new_results flag (cortical_layer_of env sid)) in
  (forall e, noted = Raise e ->
             run (import_cell builtin env mr pip cell) w = (Raise e, w1))
  /\
  (forall w', run (import_cell builtin env mr pip cell) w = (Ok tt, w') ->
              exists results,
                noted = Ok results
                /\ session_new w' = session_new w1 ++ [mkMorphology (cell_id cell) results]
                /\ stdout w' = stdout w1).
Proof.
  intros Hp Hflag sid noted. unfold import_cell.
  rewrite run_bind, Hp. cbn [lift run]. rewrite run_bind, Hflag.
  fold sid. fold noted.
  split.
  - intros e He. rewrite run_bind. cbn [lift run]. now rewrite He.
  - intros w'. rewrite run_bind. cbn [lift run].
    destruct noted as [results|e]; [|discriminate].
    rewrite run_bind. cbn [set_cell run]. rewrite run_bind. cbn [lift run].
    destruct (_ !! "transgenic_cell_class") as [tc|]; [|discriminate].
    rewrite run_bind.
    intros H. exists results. split; [reflexivity|].
    destruct tc; [| destruct (morpho_class_of _) as [| | | |c]; try destruct (negb _) ..];
      cbn in H; injection H as <-; split; reflexivity.
Qed.

(** *** The loop over the cells *)

Lemma for_each_raise {A : Type} (body : A -> py unit) pre x post w0 w1 e w2 :
  run (for_each pre body) w0 = (Ok tt, w1) ->
  run (body x) w1 = (Raise e, w2) ->
  run (for_each (pre ++ x :: post) body) w0 = (Raise e, w2).
Proof.
  revert w0. induction pre as [|a pre IH]; intros w0 Hpre Hx.
  - injection Hpre as ->. cbn [app for_each]. rewrite run_bind, Hx. reflexivity.
  - cbn [app for_each] in *. rewrite run_bind in *.
    destruct (run (body a) w0) as [[[]|e'] w']; [|discriminate].
    now apply IH.
Qed.




(** C7 (as the code has it). An annotation that matches no value (or
    more than one) of its enumerated set, or a float-typed annotation
    that fails to parse, raises the exception "Error parsing morphology
    annotation <value> for cell <id> from column <field>".  The
    exception leaves [create_db_entries]: the import of the experiment
    stops at that cell, and the session holds the records of the cells
    before it only, whatever cells follow. *)
Theorem bad_annotation_aborts_experiment :
  (forall values data sid name,
      List.length (List.filter (fun t => Py.str_eq t data) values) <> 1%nat ->
      parse_annotation builtin (TList values) data sid name
      = Raise (parse_error builtin data sid name))
  /\
  (forall s sid name,
      float_of_string builtin s = None ->
      parse_annotation builtin TFloat (VStr s) sid name
      = Raise (parse_error builtin (VStr s) sid name))
  /\
  (forall data id name,
      parse_error builtin data (VInt id) name
      = Exception_ ("Error parsing morphology annotation " +:+ Py.str builtin data
                    +:+ " for cell " +:+ pretty id +:+ " from column " +:+ name))
  /\
  (forall db job_id expt mr pip pre k cell post p key row
          c_pre name col_name col c_post data e w0 w1,
      SynphysDatabase.experiment_from_timestamp db job_id = Ok expt ->
      morpho_db builtin env = Ok mr ->
      pipette_metadata env (Py.path_join (config_synphys_data env) (storage_path expt))
      = Ok pip ->
      cells expt = pre ++ (k, cell) :: post ->
      run (for_each pre (fun item => import_cell builtin env mr pip (snd item))) w0
      = (Ok tt, w1) ->
      pip !! cell_ext_id cell = Some p ->
      Py.key_of (default VNone (cell_meta cell !! "lims_specimen_id")) = Some key ->
      mr !! key = Some row ->
      col_names = c_pre ++ (name, (col_name, col)) :: c_post ->
      Forall (column_passes builtin row
                (default VNone (cell_meta cell !! "lims_specimen_id"))) c_pre ->
      Py.dict_get row name = Some data ->
      data <> VNone ->
      parse_annotation builtin col data
        (default VNone (cell_meta cell !! "lims_specimen_id")) name = Raise e ->
      exists w2,
        run (create_db_entries builtin env db job_id) w0 = (Raise e, w2)
        /\ session_new w2 = session_new w1).
Proof.
  split; [|split; [|split]].
  - intros values data sid name H. unfold parse_annotation.
    apply Nat.eqb_neq in H. now rewrite H.
  - intros s sid name H. unfold parse_annotation, Py.float_. now rewrite H.
  - reflexivity.
  - intros db job_id expt mr pip pre k cell post p key row c_pre name col_name col
           c_post data e w0 w1 Hexpt Hmr Hpip Hcells Hpre Hp Hkey Hrow Hcols Hpass
           Hget Hnone Hbad.
    destruct (pyramidal_of_returns (default VNone (p !! "morphology")) w1)
      as (flag & lines & Hflag).
    destruct (import_cell_outcome mr pip cell p w1 flag _ Hp Hflag) as [Hraise _].
    eexists. split.
    + unfold create_db_entries. rewrite run_bind. cbn [lift run]. rewrite Hexpt.
      rewrite run_bind. cbn [lift run]. rewrite Hmr.
      rewrite run_bind. cbn [lift run]. rewrite Hpip. rewrite Hcells.
      apply (for_each_raise _ pre (k, cell) post w0 w1 e _ Hpre).
      cbn [snd]. apply Hraise.
      rewrite Hkey. cbn [mbind option_bind]. rewrite Hrow.
      unfold annotate. rewrite Hcols.
      now apply parse_columns_first_bad with (data := data).
    + reflexivity.
Qed.

End CellImport.

Section CellImportExamples.

Import MorphologyPipelineModule Examples.



(** C7 (as the spec states it) fails: the second of three cells has a
    dendrite type outside the enumeration; the import raises at it, and
    the third cell, which imports without error on its own, is not
    imported. *)
Lemma bad_annotation_drops_later_cells :
  fst (run (create_db_entries plain_builtins env_three db_three job_ts) empty_world)
  = Raise (Exception_
             "Error parsing morphology annotation bushy for cell 102 from column dendrite_type")
  /\ map morphology_cell_id
         (session_new
            (snd (run (create_db_entries plain_builtins env_three db_three job_ts)
                      empty_world)))
     = [11]
  /\ fst (run (import_cell plain_builtins env_three source_three pipettes_3 cell_3)
              empty_world) = Ok tt.
Proof. repeat split; vm_compute; reflexivity. Qed.

Lemma bad_annotation_aborts_experiment_witness :
  exists w2,
    run (create_db_entries plain_builtins env_three db_three job_ts) empty_world
    = (Raise (Exception_
                "Error parsing morphology annotation bushy for cell 102 from column dendrite_type"),
       w2)
    /\ session_new w2
       = session_new
           (snd (run (for_each [(1, cell_1)]
                        (fun item => import_cell plain_builtins env_three source_three
                                       pipettes_3 (snd item)))
                     empty_world)).
Proof.
  refine (proj2 (proj2 (proj2 (bad_annotation_aborts_experiment plain_builtins env_three)))
            db_three job_ts expt_three source_three pipettes_3
            [(1, cell_1)] 2 cell_2 [(3, cell_3)]
            {[ "morphology" := VStr "basket" ]} (inl 102) row_102
            [("Qual_Morpho_Type", ("qual_morpho_type", TStr))]
            "dendrite_type" "dendrite_type"
            (TList ["spiny"; "aspiny"; "sparsely spiny"; "NEI"])
            _ (VStr "bushy") _ empty_world _
            _ _ _ _ _ _ _ _ _ _ _ _ _).
  - vm_compute. reflexivity.
  - vm_compute. reflexivity.
  - vm_compute. reflexivity.
  - reflexivity.
  - vm_compute. reflexivity.
  - vm_compute. reflexivity.
  - vm_compute. reflexivity.
  - vm_compute. reflexivity.
  - reflexivity.
  - constructor; [|constructor]. exists (VStr "basket"). split; [reflexivity|].
    right. eexists. reflexivity.
  - vm_compute. reflexivity.
  - discriminate.
  - vm_compute. reflexivity.
Defined.

End CellImportExamples.

(* ===================================================================== *)
(** ** Further properties: lookups by timestamp and by uid *)
(* ===================================================================== *)

Section Lookups.

Import SynphysDatabase.

Variable db : database.

Lemma filter_singleton {A : Type} (f : A -> bool) (l : list A) (x : A) :
  List.filter f l = [x] -> In x l /\ f x = true.
Proof.
  intros H. apply filter_In. rewrite H. now left.
Qed.

(** X1. [slice_from_timestamp] returns a slice exactly when one slice,
    and no other, has that timestamp; the slice returned is that one.
    There is no tolerance: with no slice at the timestamp it raises. *)
Theorem slice_from_timestamp_unique (ts : float) (s : Slice) :
  slice_from_timestamp db ts = Ok s <-> slices_at db ts = [s].
Proof.
  unfold slice_from_timestamp.
  destruct (slices_at db ts) as [|a [|b l]]; simpl; split; intros H;
    try discriminate; congruence.
Qed.

(** X2. [experiment_from_uid] returns an experiment exactly when one
    experiment, and no other, has that [ext_id]; with none it raises
    [KeyError] and with several [RuntimeError]. *)
Theorem experiment_from_uid_unique (uid : float) :
  (forall e, experiment_from_uid db uid = Ok e <-> experiments_with_uid db uid = [e])
  /\ (experiment_from_uid db uid
      = Raise (KeyError (Fmt "No experiment found for uid %s" uid))
      <-> experiments_with_uid db uid = [])
  /\ (experiment_from_uid db uid
      = Raise (RuntimeError (Fmt "Multiple experiments found for uid %s" uid))
      <-> (1 < List.length (experiments_with_uid db uid))%nat).
Proof.
  unfold experiment_from_uid.
  destruct (experiments_with_uid db uid) as [|a [|b l]]; simpl;
    repeat split; intros; try discriminate; try congruence; try lia.
Qed.

(** X3. An exact match takes precedence over the tolerance scan: when
    exactly one experiment has the timestamp, [experiment_from_timestamp]
    returns it, whatever other experiments lie within 0.01 and wherever
    they stand in the table. *)
Theorem exact_match_wins (ts : float) (e : Experiment) :
  experiments_at db ts = [e] ->
  experiment_from_timestamp db ts = Ok e
  /\ In e (experiment_table db)
  /\ F64.eqb (acq_timestamp e) ts = true.
Proof.
  intros H. unfold experiment_from_timestamp. rewrite H. simpl.
  split; [reflexivity|]. now apply filter_singleton in H.
Qed.

(** X4. Whatever [experiment_from_timestamp] returns is a row of the
    experiment table whose timestamp equals the one asked for or lies
    within 0.01 of it. *)
Theorem experiment_from_timestamp_sound (ts : float) (e : Experiment) :
  experiment_from_timestamp db ts = Ok e ->
  In e (experiment_table db)
  /\ (F64.eqb (acq_timestamp e) ts = true \/ close_to ts e = true).
Proof.
  unfold experiment_from_timestamp.
  destruct (experiments_at db ts) as [|a [|b l]] eqn:Hx; simpl.
  - destruct (scan_close ts (experiment_table db)) eqn:Hs; [|discriminate].
    intros [= <-]. apply scan_close_some in Hs. tauto.
  - intros [= <-]. apply filter_singleton in Hx. tauto.
  - discriminate.
Qed.

End Lookups.

Section LookupsExamples.

Import SynphysDatabase Examples.

Lemma experiment_from_uid_unique_witness :
  experiment_from_uid db_twins (f 10 1) = Ok expt_c.
Proof.
  apply (proj1 (experiment_from_uid_unique db_twins (f 10 1))).
  vm_compute. reflexivity.
Defined.

Lemma slice_from_timestamp_unique_witness :
  slice_from_timestamp (mkDatabase [mkSlice 1 (f 7 1); mkSlice 2 (f 8 1)] [] []) (f 8 1)
  = Ok (mkSlice 2 (f 8 1)).
Proof.
  apply slice_from_timestamp_unique. vm_compute. reflexivity.
Defined.

(** [expt_c] is matched exactly at 10.0 although [expt_d], at 10.005, is
    within the tolerance. *)
Lemma exact_match_wins_witness :
  experiment_from_timestamp db_near (f 10 1) = Ok expt_c
  /\ close_to (f 10 1) expt_d = true.
Proof.
  split.
  - apply (exact_match_wins db_near (f 10 1) expt_c). vm_compute. reflexivity.
  - vm_compute. reflexivity.
Defined.

Lemma experiment_from_timestamp_sound_witness :
  In expt_c (experiment_table db_near)
  /\ (F64.eqb (acq_timestamp expt_c) (f 10004 1000) = true
      \/ close_to (f 10004 1000) expt_c = true).
Proof.
  apply (experiment_from_timestamp_sound db_near (f 10004 1000) expt_c).
  vm_compute. reflexivity.
Defined.

End LookupsExamples.

(* ===================================================================== *)
(** ** Further properties: the jobs [ready_jobs] reports *)
(* ===================================================================== *)

Section FloatEquality.

(** [==] on floats holds between two zeros and between equal numbers. *)
Lemma eqb_true_cases (a b : float) :
  F64.eqb a b = true ->
  (F64.is_zero a = true /\ F64.is_zero b = true) \/ (a = b /\ F64.is_nan a = false).
Proof.
  unfold F64.eqb, SFeqb.
  destruct a as [sa|sa| |sa ma ea], b as [sb|sb| |sb mb eb]; simpl;
    try discriminate; try (destruct sa; discriminate); try (destruct sb; discriminate);
    try (intros _; left; split; reflexivity).
  - destruct sa, sb; try discriminate; intros _; right; split; reflexivity.
  - destruct sa, sb; try discriminate;
      destruct (Z.compare ea eb) eqn:He; try discriminate;
      apply Z.compare_eq in He; subst eb;
      fold (Pos.compare ma mb);
      destruct (Pos.compare ma mb) eqn:Hm; try discriminate;
      apply Pos.compare_eq in Hm; subst mb; intros _; right; split; reflexivity.
Qed.

Lemma eqb_refl_not_nan (a : float) : F64.is_nan a = false -> F64.eqb a a = true.
Proof.
  unfold F64.eqb, SFeqb. destruct a as [s|s| |s m e]; simpl; try discriminate; intros _.
  - reflexivity.
  - now destruct s.
  - rewrite Z.compare_refl. fold (Pos.compare m m). rewrite Pos.compare_refl.
    now destruct s.
Qed.

Lemma eqb_refl_right (a b : float) : F64.eqb a b = true -> F64.eqb b b = true.
Proof.
  intros H. destruct (eqb_true_cases a b H) as [[_ Hb]|[-> Hn]].
  - now destruct b.
  - now apply eqb_refl_not_nan.
Qed.

End FloatEquality.

Section ReadyJobs.

Import MorphologyPipelineModule.

Variable env : environment.
Variable db : database.
Variable morpho_results : morpho_results_t.

(** *** The ordered dictionary *)

Lemma dict_set_fresh {V : Type} (k : float) (v : V) (d : list (float * V)) :
  Forall (fun kv => F64.eqb (fst kv) k = false) d ->
  dict_set F64.eqb k v d = d ++ [(k, v)].
Proof.
  induction 1 as [|[k' v'] d Hk _ IH]; simpl; [reflexivity|].
  simpl in Hk. now rewrite Hk, IH.
Qed.

Lemma dict_set_last {V : Type} (k : float) (v v' : V) (d : list (float * V)) :
  Forall (fun kv => F64.eqb (fst kv) k = false) d ->
  F64.eqb k k = true ->
  dict_set F64.eqb k v' (d ++ [(k, v)]) = d ++ [(k, v')].
Proof.
  intros Hd Hk. induction Hd as [|[k0 v0] d H0 _ IH]; simpl.
  - now rewrite Hk.
  - simpl in H0. now rewrite H0, IH.
Qed.

(** *** The comparisons never fail *)

Lemma recomputed_hash_returns (id : Z) :
  exists h, recomputed_hash morpho_results id = Ok h.
Proof.
  unfold recomputed_hash, iterate.
  destruct (morpho_results !! (inl id : pykey)) as [d|].
  - replace (map (fun kv : string * pyval => VStr (fst kv)) d)
      with (map VStr (map fst d)) by (rewrite map_map; reflexivity).
    rewrite strings_of_keys. eexists. reflexivity.
  - eexists. reflexivity.
Qed.

Lemma compare_cell_returns (cell : lims_cell) :
  exists c, compare_cell db morpho_results cell = Ok c.
Proof.
  unfold compare_cell. destruct (lims_cell_id cell) as [id|]; [|eexists; reflexivity].
  destruct (recomputed_hash_returns id) as [h ->]. simpl.
  destruct (morphology_of_specimen db (pretty id)) as [|r [|r' l]];
    simpl; eexists; reflexivity.
Qed.

Lemma cell_hash_compare_returns (cluster_cells : list lims_cell) :
  exists l, cell_hash_compare db morpho_results cluster_cells = Ok l.
Proof.
  induction cluster_cells as [|cell rest [l IH]]; simpl; [eexists; reflexivity|].
  destruct (compare_cell_returns cell) as [c ->]. simpl. rewrite IH. simpl.
  eexists. reflexivity.
Qed.

(** The query of line 161 has no row. *)
Lemma morphology_of_specimen_empty (specimen : string) :
  morphology_of_specimen db specimen = [].
Proof.
  unfold morphology_of_specimen.
  change (Py.str_eq specimen (default VNone (Py.dict_get Cell_meta_info "lims_specimen_id")))
    with false.
  cbv zeta.
  assert (Hcells : forall m (cs : list Cell),
             flat_map (fun c : Cell =>
                         if (cell_id c =? morphology_cell_id m) && false then [m] else [])
                      cs = []).
  { intros m cs. induction cs as [|c cs IH]; [reflexivity|].
    cbn [flat_map]. now rewrite IH, andb_false_r. }
  induction (morphology_table db) as [|m ms IH]; [reflexivity|].
  cbn [flat_map]. now rewrite IH, Hcells.
Qed.

Lemma cell_hash_compare_no_id (cluster_cells : list lims_cell) :
  Forall (fun cell => lims_cell_id cell = None) cluster_cells ->
  cell_hash_compare db morpho_results cluster_cells = Ok [].
Proof.
  induction 1 as [|cell rest Hc _ IH]; [reflexivity|].
  cbn [cell_hash_compare]. unfold compare_cell. rewrite Hc. cbn. now rewrite IH.
Qed.

Lemma cell_with_id_stale (cell : lims_cell) :
  lims_cell_id cell <> None -> cell_stale db morpho_results cell.
Proof.
  destruct (lims_cell_id cell) as [i|] eqn:Hid; [intros _|congruence].
  exists i. split; [exact Hid|]. left. now rewrite morphology_of_specimen_empty.
Qed.

Lemma cell_hash_compare_stale (cluster_cells : list lims_cell) :
  Exists (cell_stale db morpho_results) cluster_cells ->
  exists l, cell_hash_compare db morpho_results cluster_cells = Ok l
            /\ forallb id l = false.
Proof.
  induction 1 as [cell rest (i & Hid & Hc)|cell rest _ (l & IH & Hl)]; simpl.
  - destruct (cell_hash_compare_returns rest) as [l Hl]. rewrite Hl.
    unfold compare_cell. rewrite Hid.
    destruct (recomputed_hash_returns i) as [h Hh]. rewrite Hh. simpl.
    destruct Hc as [Hlen|(rec & h' & Hrec & Hh' & Hne)].
    + apply Nat.eqb_neq in Hlen. rewrite Hlen. simpl. eexists. split; reflexivity.
    + rewrite Hrec. simpl. rewrite Hh in Hh'. injection Hh' as <-.
      rewrite Hne. eexists. split; reflexivity.
  - destruct (compare_cell_returns cell) as [c ->]. simpl. rewrite IH. simpl.
    eexists. split; [reflexivity|]. destruct c as [[]|]; simpl; auto.
Qed.

(** *** One job *)

Lemma first_filter_found (expt_id : float) (expt : Experiment) :
  SynphysDatabase.first (SynphysDatabase.experiments_with_uid db expt_id) = Ok expt ->
  In expt (experiment_table db) /\ F64.eqb (expt_ext_id expt) expt_id = true.
Proof.
  unfold SynphysDatabase.experiments_with_uid.
  destruct (List.filter _ _) as [|e l] eqn:H; [discriminate|].
  intros [= <-].
  apply (proj1 (filter_In (fun e => F64.eqb (expt_ext_id e) expt_id) e (experiment_table db))).
  rewrite H. now left.
Qed.

Lemma ready_job_skips ready job :
  successful job = false ->
  ready_job env db morpho_results ready job = Ok ready.
Proof.
  destruct job as [expt_id [mtime success]]. unfold successful. simpl.
  destruct success as [|[]| | |]; try discriminate; reflexivity.
Qed.

Lemma ready_job_inv ready expt_id mtime ready' :
  ready_job env db morpho_results ready (expt_id, (mtime, VBool true)) = Ok ready' ->
  F64.eqb expt_id expt_id = true
  /\ (ready' = dict_set F64.eqb expt_id mtime ready
      \/ ready' = dict_set F64.eqb expt_id (datetime_now env)
                    (dict_set F64.eqb expt_id mtime ready)).
Proof.
  unfold ready_job.
  destruct (SynphysDatabase.first _) as [expt|e] eqn:Hf; [|discriminate].
  apply first_filter_found in Hf. destruct Hf as [_ Hf]. apply eqb_refl_right in Hf.
  simpl. intros H. split; [exact Hf|].
  destruct (default VNone (expt_meta expt !! "lims_cell_cluster_id")) eqn:Hc;
    try (injection H as <-; now left);
    (destruct (lims_cluster_cells env _) as [cs|]; [|injection H as <-; now left];
     destruct (cell_hash_compare db morpho_results cs) as [l|]; [|discriminate];
     simpl in H; destruct (forallb id l); injection H as <-; auto).
Qed.

Lemma ready_job_returns ready expt_id mtime :
  SynphysDatabase.experiments_with_uid db expt_id <> [] ->
  exists ready',
    ready_job env db morpho_results ready (expt_id, (mtime, VBool true)) = Ok ready'.
Proof.
  intros H. unfold ready_job.
  fold (SynphysDatabase.experiments_with_uid db expt_id).
  destruct (SynphysDatabase.experiments_with_uid db expt_id) as [|expt others];
    [congruence|].
  simpl.
  destruct (default VNone (expt_meta expt !! "lims_cell_cluster_id"));
    try (eexists; reflexivity);
    (destruct (lims_cluster_cells env _) as [cs|]; [|eexists; reflexivity];
     destruct (cell_hash_compare_returns cs) as [verdicts ->]; simpl;
     destruct (forallb id verdicts); eexists; reflexivity).
Qed.

Lemma ready_job_no_row ready expt_id mtime :
  SynphysDatabase.experiments_with_uid db expt_id = [] ->
  ready_job env db morpho_results ready (expt_id, (mtime, VBool true))
  = Raise (IndexError "list index out of range").
Proof.
  intros H. unfold ready_job.
  fold (SynphysDatabase.experiments_with_uid db expt_id). now rewrite H.
Qed.

(** X5. A job whose experiment names no LIMS cluster (the key is absent
    or [None]), or whose cluster LIMS does not know, is ready with its
    dependency time: neither the morphology source nor the stored
    records are consulted. *)
Theorem ready_job_without_cluster ready expt_id mtime expt rest :
  SynphysDatabase.experiments_with_uid db expt_id = expt :: rest ->
  expt_meta expt !! "lims_cell_cluster_id" = None
  \/ expt_meta expt !! "lims_cell_cluster_id" = Some VNone
  \/ (exists cluster, expt_meta expt !! "lims_cell_cluster_id" = Some cluster
                      /\ lims_cluster_cells env cluster = None) ->
  ready_job env db morpho_results ready (expt_id, (mtime, VBool true))
  = Ok (dict_set F64.eqb expt_id mtime ready).
Proof.
  intros Hx H. unfold ready_job.
  fold (SynphysDatabase.experiments_with_uid db expt_id). rewrite Hx. simpl.
  destruct H as [-> | [-> | (cluster & -> & Hnone)]]; try reflexivity.
  simpl. destruct cluster; try reflexivity; now rewrite Hnone.
Qed.

(** X6. The query of line 161 is filtered by a Python constant, [False],
    and finds no record, whatever the database holds.  So for a job
    whose experiment has a cluster LIMS knows, the stored hashes play no
    part: the job keeps its dependency time when no cell of the cluster
    has an id, and its time is set to now as soon as one cell has an
    id, even if the stored record of that cell carries the recomputed
    hash. *)
Theorem ready_job_by_cell_ids ready expt_id mtime expt rest cluster cluster_cells :
  SynphysDatabase.experiments_with_uid db expt_id = expt :: rest ->
  expt_meta expt !! "lims_cell_cluster_id" = Some cluster ->
  cluster <> VNone ->
  lims_cluster_cells env cluster = Some cluster_cells ->
  (Forall (fun cell => lims_cell_id cell = None) cluster_cells ->
   ready_job env db morpho_results ready (expt_id, (mtime, VBool true))
   = Ok (dict_set F64.eqb expt_id mtime ready))
  /\
  (Exists (fun cell => lims_cell_id cell <> None) cluster_cells ->
   ready_job env db morpho_results ready (expt_id, (mtime, VBool true))
   = Ok (dict_set F64.eqb expt_id (datetime_now env)
           (dict_set F64.eqb expt_id mtime ready))).
Proof.
  intros Hx Hmeta Hc Hcells.
  assert (Hfirst : SynphysDatabase.first
                     (List.filter (fun e => F64.eqb (expt_ext_id e) expt_id)
                        (experiment_table db)) = Ok expt).
  { fold (SynphysDatabase.experiments_with_uid db expt_id). now rewrite Hx. }
  split.
  - intros Hnone.
    now rewrite (ready_job_timestamp env db morpho_results ready expt_id mtime
                   expt cluster cluster_cells [] Hfirst Hmeta Hc Hcells
                   (cell_hash_compare_no_id cluster_cells Hnone)).
  - intros Hsome.
    assert (Hstale : Exists (cell_stale db morpho_results) cluster_cells).
    { eapply Exists_impl; [exact Hsome|]. intros cell. apply cell_with_id_stale. }
    destruct (cell_hash_compare_stale cluster_cells Hstale) as (l & Hl & Hall).
    rewrite (ready_job_timestamp env db morpho_results ready expt_id mtime
               expt cluster cluster_cells l Hfirst Hmeta Hc Hcells Hl).
    now rewrite Hall.
Qed.

(** X7. When some cell of the cluster has an id and no stored
    [Morphology] record, or more than one, or a record whose hash is not
    the recomputed one (a NULL hash included), the job's time is set to
    now. *)
Theorem ready_job_stale ready expt_id mtime expt rest cluster cluster_cells :
  SynphysDatabase.experiments_with_uid db expt_id = expt :: rest ->
  expt_meta expt !! "lims_cell_cluster_id" = Some cluster ->
  cluster <> VNone ->
  lims_cluster_cells env cluster = Some cluster_cells ->
  Exists (cell_stale db morpho_results) cluster_cells ->
  ready_job env db morpho_results ready (expt_id, (mtime, VBool true))
  = Ok (dict_set F64.eqb expt_id (datetime_now env)
          (dict_set F64.eqb expt_id mtime ready)).
Proof.
  intros Hx Hmeta Hc Hcells Hstale.
  destruct (cell_hash_compare_stale cluster_cells Hstale) as (l & Hl & Hall).
  rewrite (ready_job_timestamp env db morpho_results ready expt_id mtime
             expt cluster cluster_cells l); try assumption.
  - now rewrite Hall.
  - fold (SynphysDatabase.experiments_with_uid db expt_id). now rewrite Hx.
Qed.

(** *** The loop over the finished jobs *)

Lemma ready_loop_entries jobs : forall ready ready',
  distinct_ids jobs = true ->
  Forall (fun kv => Forall (fun job => F64.eqb (fst kv) (fst job) = false) jobs) ready ->
  ready_loop env db morpho_results jobs ready = Ok ready' ->
  exists tail,
    ready' = ready ++ tail /\ Forall2 (entry_of env) tail (List.filter successful jobs).
Proof.
  induction jobs as [|job jobs IH]; intros ready ready' Hd Hfresh H.
  - injection H as <-. exists []. split; [now rewrite app_nil_r|constructor].
  - cbn [ready_loop] in H. cbn [distinct_ids] in Hd.
    apply andb_prop in Hd. destruct Hd as [Hjob Hd].
    destruct (ready_job env db morpho_results ready job) as [ready1|e] eqn:Hj;
      [|discriminate].
    cbn in H.
    assert (Hold : Forall (fun kv => Forall (fun j => F64.eqb (fst kv) (fst j) = false) jobs)
                          ready).
    { eapply Forall_impl; [exact Hfresh|]. intros kv Hkv. now inversion Hkv. }
    cbn [List.filter]. destruct (successful job) eqn:Hs.
    + destruct job as [expt_id [mtime success]]. unfold successful in Hs. simpl in Hs.
      destruct success as [|[]| | |]; try discriminate.
      apply ready_job_inv in Hj. destruct Hj as [Hrefl Hj].
      assert (Hnew : Forall (fun kv => F64.eqb (fst kv) expt_id = false) ready).
      { eapply Forall_impl; [exact Hfresh|]. intros kv Hkv. now inversion Hkv. }
      assert (Hshape : exists t, ready1 = ready ++ [(expt_id, t)]
                                 /\ (t = mtime \/ t = datetime_now env)).
      { destruct Hj as [-> | ->].
        - exists mtime. rewrite (dict_set_fresh _ _ _ Hnew). auto.
        - exists (datetime_now env).
          rewrite (dict_set_fresh _ _ _ Hnew), (dict_set_last _ _ _ _ Hnew Hrefl). auto. }
      destruct Hshape as (t & -> & Ht).
      destruct (IH (ready ++ [(expt_id, t)]) ready' Hd) as (tail & -> & Htail).
      * apply Forall_app. split; [exact Hold|]. constructor; [|constructor].
        simpl. apply List.Forall_forall. intros j Hin.
        rewrite forallb_forall in Hjob. specialize (Hjob j Hin).
        simpl in Hjob. now apply negb_true_iff in Hjob.
      * exact H.
      * exists ((expt_id, t) :: tail). split; [now rewrite <- app_assoc|].
        constructor; [|exact Htail]. split; [reflexivity|exact Ht].
    + rewrite (ready_job_skips ready job Hs) in Hj. injection Hj as <-.
      now apply IH.
Qed.

Lemma ready_loop_returns jobs : forall ready,
  Forall (fun job => SynphysDatabase.experiments_with_uid db (fst job) <> [])
         (List.filter successful jobs) ->
  exists ready', ready_loop env db morpho_results jobs ready = Ok ready'.
Proof.
  induction jobs as [|job jobs IH]; intros ready H; cbn [ready_loop].
  - eexists. reflexivity.
  - cbn [List.filter] in H. destruct (successful job) eqn:Hs.
    + inversion H as [|? ? Hrow Hrest]; subst.
      destruct job as [expt_id [mtime success]]. unfold successful in Hs. simpl in Hs.
      destruct success as [|[]| | |]; try discriminate.
      destruct (ready_job_returns ready expt_id mtime Hrow) as [r ->]. cbn.
      apply IH, Hrest.
    + rewrite (ready_job_skips ready job Hs). cbn. now apply IH.
Qed.

Lemma ready_loop_no_row pre job post : forall ready,
  Forall (fun j => SynphysDatabase.experiments_with_uid db (fst j) <> [])
         (List.filter successful pre) ->
  successful job = true ->
  SynphysDatabase.experiments_with_uid db (fst job) = [] ->
  ready_loop env db morpho_results (pre ++ job :: post) ready
  = Raise (IndexError "list index out of range").
Proof.
  induction pre as [|j pre IH]; intros ready Hpre Hs Hrow.
  - cbn [app ready_loop]. destruct job as [expt_id [mtime success]].
    unfold successful in Hs. simpl in Hs.
    destruct success as [|[]| | |]; try discriminate.
    simpl in Hrow. now rewrite (ready_job_no_row ready expt_id mtime Hrow).
  - cbn [app ready_loop]. cbn [List.filter] in Hpre. destruct (successful j) eqn:Hj.
    + inversion Hpre as [|? ? Hr Hrest]; subst.
      destruct j as [expt_id [mtime success]]. unfold successful in Hj. simpl in Hj.
      destruct success as [|[]| | |]; try discriminate.
      destruct (ready_job_returns ready expt_id mtime Hr) as [r ->]. cbn.
      now apply IH.
    + rewrite (ready_job_skips ready j Hj). cbn. now apply IH.
Qed.

End ReadyJobs.

Section ReadyJobsResult.

Import MorphologyPipelineModule.

Variable builtin : builtins.
Variable env : environment.
Variable db : database.

(** X8. When the morphology source is available, the ordered map that
    [ready_jobs] returns has one entry per finished job whose [success]
    is [True], in the order of the finished jobs and keyed by the job
    id; the entry's time is the job's dependency time or now.  Jobs that
    did not succeed have no entry, and nothing is printed or added to
    the session. *)
Theorem ready_jobs_entries morpho_results w ready w' :
  morpho_db builtin env = Ok morpho_results ->
  distinct_ids (finished_jobs env) = true ->
  run (ready_jobs builtin env db) w = (Ok ready, w') ->
  w' = w
  /\ Forall2 (entry_of env) ready (List.filter successful (finished_jobs env)).
Proof.
  intros Hmr Hd. unfold ready_jobs. rewrite Hmr. cbn [lift run].
  intros [= H <-]. split; [reflexivity|].
  destruct (ready_loop_entries env db morpho_results (finished_jobs env)
              [] ready Hd (List.Forall_nil _) H) as (tail & -> & Htail).
  exact Htail.
Qed.

(** X9. With the morphology source available, [ready_jobs] returns
    whenever every successful finished job has an [Experiment] row with
    its [ext_id]; the first successful job without such a row makes it
    raise [IndexError], whatever jobs follow. *)
Theorem ready_jobs_needs_experiment_rows morpho_results w :
  morpho_db builtin env = Ok morpho_results ->
  (Forall (fun job => SynphysDatabase.experiments_with_uid db (fst job) <> [])
          (List.filter successful (finished_jobs env)) ->
   exists ready, run (ready_jobs builtin env db) w = (Ok ready, w))
  /\
  (forall pre job post,
      finished_jobs env = pre ++ job :: post ->
      Forall (fun j => SynphysDatabase.experiments_with_uid db (fst j) <> [])
             (List.filter successful pre) ->
      successful job = true ->
      SynphysDatabase.experiments_with_uid db (fst job) = [] ->
      run (ready_jobs builtin env db) w
      = (Raise (IndexError "list index out of range"), w)).
Proof.
  intros Hmr. unfold ready_jobs. rewrite Hmr. cbn [lift run]. split.
  - intros H.
    destruct (ready_loop_returns env db morpho_results (finished_jobs env) [] H)
      as [r ->].
    now exists r.
  - intros pre job post -> Hpre Hs Hrow.
    now rewrite (ready_loop_no_row env db morpho_results pre job post []
                   Hpre Hs Hrow).
Qed.

End ReadyJobsResult.

Section ReadyJobsExamples.

Import MorphologyPipelineModule Examples.

(** An experiment without a cluster keeps its dependency time. *)
Lemma ready_job_without_cluster_witness :
  ready_job env_one db_fresh source_101 [] (f 10 1, (950, VBool true))
  = Ok [(f 10 1, 950)].
Proof.
  apply (ready_job_without_cluster env_one db_fresh source_101
           [] (f 10 1) 950 expt_c []).
  - vm_compute. reflexivity.
  - left. vm_compute. reflexivity.
Defined.

(** The stored record carries the hash that is recomputed, and still
    the time is set to now: the record is not found. *)
Lemma ready_job_by_cell_ids_witness :
  ready_job env_one db_fresh source_101 [] (job_ts, (1000, VBool true))
  = Ok [(job_ts, 5000)].
Proof.
  apply (proj2 (ready_job_by_cell_ids env_one db_fresh source_101
                  [] job_ts 1000 expt_one [] (VInt 7) [mkLimsCell (Some 101)]
                  ltac:(vm_compute; reflexivity) ltac:(vm_compute; reflexivity)
                  ltac:(discriminate) eq_refl)).
  constructor. discriminate.
Defined.

(** No record is stored for specimen 101: the time is set to now. *)
Lemma ready_job_stale_witness :
  ready_job env_one db_one source_101 [] (job_ts, (1000, VBool true))
  = Ok [(job_ts, 5000)].
Proof.
  apply (ready_job_stale env_one db_one source_101
           [] job_ts 1000 expt_one [] (VInt 7) [mkLimsCell (Some 101)]).
  - vm_compute. reflexivity.
  - vm_compute. reflexivity.
  - discriminate.
  - reflexivity.
  - constructor. exists 101. split; [reflexivity|]. left. vm_compute. lia.
Defined.

Lemma ready_jobs_entries_witness :
  empty_world = empty_world
  /\ Forall2 (entry_of (env_with_jobs jobs_mixed))
       [(job_ts, 5000); (f 10 1, 950)]
       (List.filter successful (finished_jobs (env_with_jobs jobs_mixed))).
Proof.
  apply (ready_jobs_entries plain_builtins (env_with_jobs jobs_mixed) db_fresh
           source_101 empty_world [(job_ts, 5000); (f 10 1, 950)] empty_world).
  - vm_compute. reflexivity.
  - vm_compute. reflexivity.
  - vm_compute. reflexivity.
Defined.

Lemma ready_jobs_needs_experiment_rows_witness :
  run (ready_jobs plain_builtins (env_with_jobs jobs_three) db_one) empty_world
  = (Raise (IndexError "list index out of range"), empty_world).
Proof.
  apply (proj2 (ready_jobs_needs_experiment_rows plain_builtins
                  (env_with_jobs jobs_three) db_one source_101 empty_world
                  ltac:(vm_compute; reflexivity))
           [(f 15 1, (800, VBool false)); (job_ts, (1000, VBool true))]
           (f 10 1, (950, VBool true)) []).
  - reflexivity.
  - constructor; [|constructor]. vm_compute. discriminate.
  - reflexivity.
  - vm_compute. reflexivity.
Defined.

End ReadyJobsExamples.

(* ===================================================================== *)
(** ** Further properties: what the import leaves in the session *)
(* ===================================================================== *)

Section CellClass.

Import MorphologyPipelineModule.

Variable builtin : builtins.
Variable env : environment.

(** The state [import_cell] leaves when it returns: one record added,
    and the cell with its metadata and class set as lines 100-110 do. *)
Lemma import_cell_dirty mr pip cell p w w' :
  pip !! cell_ext_id cell = Some p ->
  run (import_cell builtin env mr pip cell) w = (Ok tt, w') ->
  exists m tc c,
    session_new w' = session_new w ++ [m]
    /\ cell_meta cell !! "transgenic_cell_class" = Some tc
    /\ session_dirty w' !! cell_id cell = Some c
    /\ cell_meta c
       = <["morpho_cell_class" := morpho_class_of (column m "dendrite_type")]>
           (cell_meta cell)
    /\ cell_class_nonsynaptic c
       = match tc, morpho_class_of (column m "dendrite_type") with
         | VNone, mc => mc
         | _, VStr k =>
             if negb (Py.str_eq k tc) then VNone else cell_class_nonsynaptic cell
         | _, _ => cell_class_nonsynaptic cell
         end.
Proof.
  intros Hp. unfold import_cell.
  rewrite run_bind, Hp. cbn [lift run]. rewrite run_bind.
  destruct (pyramidal_of_returns builtin (default VNone (p !! "morphology")) w)
    as (flag & lines & ->).
  rewrite run_bind. cbn [lift run].
  destruct (annotate _ _ _ _) as [results|e]; [|discriminate].
  rewrite run_bind. cbn [set_cell run]. rewrite run_bind. cbn [lift run].
  rewrite lookup_insert_ne by discriminate.
  destruct (cell_meta cell !! "transgenic_cell_class") as [tc|]; [|discriminate].
  rewrite run_bind. unfold column. cbn [morphology_columns].
  intros H.
  exists (mkMorphology (cell_id cell) results), tc.
  cbn [morphology_columns].
  destruct tc;
    [| destruct (morpho_class_of (default VNone (results !! "dendrite_type")));
       try destruct (negb _) ..];
    cbn in H; injection H as <-; eexists; cbn;
    (split; [reflexivity|]; split; [reflexivity|]; split; [apply lookup_insert_eq|]);
    split; reflexivity.
Qed.

(** X10. When [import_cell] returns, the cell it leaves in the session
    has [morpho_cell_class] set in its metadata to the class of the
    record's dendrite type ("ex" for spiny, "in" for aspiny, else
    [None]), and its [cell_class_nonsynaptic] is that class when the
    transgenic class is [None], [None] when both classes are known and
    differ, and unchanged otherwise. *)
Theorem cell_class_after_import mr pip cell p w w' :
  pip !! cell_ext_id cell = Some p ->
  run (import_cell builtin env mr pip cell) w = (Ok tt, w') ->
  exists m tc c,
    session_new w' = session_new w ++ [m]
    /\ cell_meta cell !! "transgenic_cell_class" = Some tc
    /\ session_dirty w' !! cell_id cell = Some c
    /\ let dendrite := column m "dendrite_type" in
       let mc := morpho_class_of dendrite in
       cell_meta c !! "morpho_cell_class" = Some mc
       /\ (dendrite = VStr "spiny" -> mc = VStr "ex")
       /\ (dendrite = VStr "aspiny" -> mc = VStr "in")
       /\ (dendrite <> VStr "spiny" -> dendrite <> VStr "aspiny" -> mc = VNone)
       /\ (tc = VNone -> cell_class_nonsynaptic c = mc)
       /\ (forall k, tc <> VNone -> mc = VStr k -> Py.str_eq k tc = false ->
                     cell_class_nonsynaptic c = VNone)
       /\ (forall k, tc <> VNone -> mc = VStr k -> Py.str_eq k tc = true ->
                     cell_class_nonsynaptic c = cell_class_nonsynaptic cell)
       /\ (tc <> VNone -> mc = VNone ->
           cell_class_nonsynaptic c = cell_class_nonsynaptic cell).
Proof.
  intros Hp Hrun.
  destruct (import_cell_dirty mr pip cell p w w' Hp Hrun)
    as (m & tc & c & Hnew & Htc & Hc & Hmeta & Hclass).
  exists m, tc, c. split; [exact Hnew|]. split; [exact Htc|]. split; [exact Hc|].
  cbv zeta. rewrite Hmeta, Hclass.
  split; [apply lookup_insert_eq|].
  split; [intros ->; reflexivity|].
  split; [intros ->; reflexivity|].
  split.
  { intros H1 H2. unfold morpho_class_of.
    destruct (column m "dendrite_type") as [| | | |t]; try reflexivity.
    unfold Py.str_eq.
    destruct (String.eqb_spec "spiny" t) as [<-|_]; [congruence|].
    destruct (String.eqb_spec "aspiny" t) as [<-|_]; [congruence|reflexivity]. }
  split; [intros ->; reflexivity|].
  split; [|split].
  - intros k Hne -> Hk. rewrite Hk. destruct tc; try congruence; reflexivity.
  - intros k Hne -> Hk. rewrite Hk. destruct tc; try congruence; reflexivity.
  - intros Hne ->. destruct tc; try congruence; reflexivity.
Qed.

(** X11. A cell whose metadata has no [transgenic_cell_class] key is
    never imported: [import_cell] raises, and no record is added to the
    session. *)
Theorem import_cell_needs_transgenic_class mr pip cell p w :
  pip !! cell_ext_id cell = Some p ->
  cell_meta cell !! "transgenic_cell_class" = None ->
  exists e w2,
    run (import_cell builtin env mr pip cell) w = (Raise e, w2)
    /\ session_new w2 = session_new w.
Proof.
  intros Hp Hnone. unfold import_cell.
  rewrite run_bind, Hp. cbn [lift run]. rewrite run_bind.
  destruct (pyramidal_of_returns builtin (default VNone (p !! "morphology")) w)
    as (flag & lines & ->).
  rewrite run_bind. cbn [lift run].
  destruct (annotate _ _ _ _) as [results|e]; [|eexists _, _; split; reflexivity].
  rewrite run_bind. cbn [set_cell run]. rewrite run_bind. cbn [lift run].
  rewrite lookup_insert_ne by discriminate. rewrite Hnone.
  eexists _, _. split; reflexivity.
Qed.


End CellClass.

Section Annotations.

Import MorphologyPipelineModule.

Variable builtin : builtins.

(** A value [parse_annotation] returns: the annotation itself when it is
    one of the enumerated values, the float it parses to, or the text. *)
Lemma parse_annotation_value col data sid name v :
  parse_annotation builtin col data sid name = Ok v ->
  match col with
  | TList values => exists t, In t values /\ data = VStr t /\ v = VStr t
  | TFloat => exists x, Py.float_ builtin data = Ok x /\ v = VFloat x
  | TStr => v = data
  end.
Proof.
  unfold parse_annotation. destruct col as [| |values].
  - now intros [= <-].
  - destruct (Py.float_ builtin data) as [x|e]; [intros [= <-]; eauto|].
    destruct (is_ValueError e); discriminate.
  - destruct (List.filter (fun t => Py.str_eq t data) values) as [|t [|t' l]] eqn:Hf;
      try discriminate.
    cbn. intros [= <-]. exists t.
    assert (Hin : In t (List.filter (fun t => Py.str_eq t data) values))
      by (rewrite Hf; now left).
    apply filter_In in Hin. destruct Hin as [Hin Heq].
    unfold Py.str_eq in Heq. destruct data; try discriminate.
    apply String.eqb_eq in Heq. subst. auto.
Qed.

(** What the loop over the columns stores for each of them. *)
Lemma parse_columns_values cols : forall cell_morpho sid results results',
  NoDup (map (fun c : string * (string * col_type) => fst (snd c)) cols) ->
  parse_columns builtin cols cell_morpho sid results = Ok results' ->
  Forall (fun c : string * (string * col_type) =>
            exists data v,
              Py.dict_get cell_morpho (fst c) = Some data
              /\ results' !! fst (snd c) = Some v
              /\ ((data = VNone /\ v = VNone)
                  \/ (data <> VNone
                      /\ parse_annotation builtin (snd (snd c)) data sid (fst c) = Ok v)))
         cols.
Proof.
  induction cols as [|[name [col_name col]] cols IH];
    intros cell_morpho sid results results' Hnd H; [constructor|].
  cbn [map fst snd] in Hnd. inversion Hnd as [|? ? Hnotin Hnd']; subst.
  cbn [parse_columns] in H.
  destruct (Py.dict_get cell_morpho name) as [data|] eqn:Hget; [|discriminate].
  cbn in H.
  destruct (match data with
            | VNone => Ok VNone
            | _ => parse_annotation builtin col data sid name
            end) as [v|e] eqn:Hv; [|discriminate].
  cbn in H.
  constructor; [|exact (IH cell_morpho sid _ results' Hnd' H)].
  exists data, v. cbn [fst snd]. split; [exact Hget|]. split.
  - rewrite (parse_columns_other builtin cols cell_morpho sid (<[col_name:=v]> results)
               results' col_name); [| |exact H].
    + apply lookup_insert_eq.
    + apply List.Forall_forall. intros c Hc Heq. apply Hnotin.
      rewrite <- Heq. apply list_elem_of_In.
      now apply (in_map (fun c : string * (string * col_type) => fst (snd c))).
  - destruct data; [left; split; congruence|right; split; [discriminate|exact Hv] ..].
Qed.

Lemma col_names_distinct :
  NoDup (map (fun c : string * (string * col_type) => fst (snd c)) col_names).
Proof.
  cbn.
  repeat (apply NoDup_cons_2; [rewrite list_elem_of_In; cbn; intuition discriminate|]).
  apply NoDup_nil_2.
Qed.

Lemma col_names_not_hash :
  Forall (fun c : string * (string * col_type) => fst (snd c) <> "morpho_db_hash") col_names.
Proof. repeat constructor; discriminate. Qed.

(** X13. When the annotations of a source row are accepted, the record
    gets the MD5 of the row's [repr] as its hash, and for every column
    of [col_names]: a categorical column holds NULL or one of its
    enumerated values (the one the source names), a float column holds
    NULL or the float the source value converts to, and the text column
    holds the source value as it is. *)
Theorem annotated_columns cell_morpho sid results results' :
  annotate builtin (Some cell_morpho) sid results = Ok results' ->
  results' !! "morpho_db_hash" = Some (VStr (stored_hash builtin cell_morpho))
  /\ Forall (fun c : string * (string * col_type) =>
               exists data,
                 Py.dict_get cell_morpho (fst c) = Some data
                 /\ match snd (snd c) with
                    | TList values =>
                        (data = VNone /\ results' !! fst (snd c) = Some VNone)
                        \/ exists t, In t values /\ data = VStr t
                                     /\ results' !! fst (snd c) = Some (VStr t)
                    | TFloat =>
                        (data = VNone /\ results' !! fst (snd c) = Some VNone)
                        \/ exists x, Py.float_ builtin data = Ok x
                                     /\ results' !! fst (snd c) = Some (VFloat x)
                    | TStr => results' !! fst (snd c) = Some data
                    end)
            col_names.
Proof.
  unfold annotate. intros H. split.
  - rewrite (parse_columns_other builtin _ _ _ _ _ _ col_names_not_hash H).
    apply lookup_insert_eq.
  - apply (parse_columns_values _ _ _ _ _ col_names_distinct) in H.
    eapply Forall_impl; [exact H|].
    intros [name [col_name col]] (data & v & Hget & Hv & Hcase). cbn [fst snd] in *.
    exists data. split; [exact Hget|].
    destruct Hcase as [[-> ->]|[Hne Hp]].
    + destruct col; auto.
    + apply parse_annotation_value in Hp. destruct col.
      * now subst.
      * destruct Hp as (x & Hx & ->). right. eauto.
      * destruct Hp as (t & Hin & -> & ->). right. eauto.
Qed.

(** X14. A source row that lacks one of the fields of [col_names] aborts
    the import with [KeyError] naming the first such field, when the
    fields before it parse. *)
Theorem missing_field_raises cell_morpho sid results c_pre name col_name col c_post :
  col_names = c_pre ++ (name, (col_name, col)) :: c_post ->
  Forall (column_passes builtin cell_morpho sid) c_pre ->
  Py.dict_get cell_morpho name = None ->
  annotate builtin (Some cell_morpho) sid results = Raise (KeyError (Msg name)).
Proof.
  intros Hcols Hpre Hget. unfold annotate. rewrite Hcols. clear Hcols.
  generalize (<["morpho_db_hash" := VStr (stored_hash builtin cell_morpho)]> results).
  induction Hpre as [|[n [cn c]] pre (d & Hd & Hok) _ IH]; intros res; cbn.
  - now rewrite Hget.
  - cbn in Hd, Hok. rewrite Hd. cbn.
    destruct Hok as [-> | (v & Hv)]; cbn; [apply IH|].
    destruct d; cbn; try apply IH; rewrite Hv; cbn; apply IH.
Qed.

End Annotations.

(* ===================================================================== *)
(** ** Further properties: the morphology source *)
(* ===================================================================== *)

Section Source.

Import MorphologyPipelineModule.

Variable builtin : builtins.
Variable env : environment.

Lemma rows_dict_keys desc fields rs : forall acc mr,
  rows_dict builtin desc fields rs acc = Ok mr ->
  (forall k, is_Some (acc !! k) -> is_Some (mr !! k))
  /\ (forall k, is_Some (mr !! k) -> is_Some (acc !! k) \/ exists z, k = inl z)
  /\ Forall (fun r => exists v z,
                 getattr desc r "cell_specimen_id" = Ok v
                 /\ Py.int_ builtin v = Ok z
                 /\ is_Some (mr !! (inl z : pykey))) rs.
Proof.
  induction rs as [|r rs IH]; intros acc mr H.
  - injection H as <-. repeat split; auto.
  - cbn [rows_dict] in H.
    destruct (getattr desc r "cell_specimen_id") as [v|] eqn:Hv; [|discriminate].
    cbn in H. destruct (Py.int_ builtin v) as [z|] eqn:Hz; [|discriminate].
    cbn in H. destruct (row_dict desc r fields []) as [d|]; [|discriminate].
    cbn in H. destruct (IH _ _ H) as (Hmono & Hkeys & Hrows).
    split; [|split].
    + intros k Hk. apply Hmono.
      destruct (decide (k = inl z)) as [->|Hne].
      * rewrite lookup_insert_eq. eauto.
      * now rewrite lookup_insert_ne.
    + intros k Hk. destruct (Hkeys k Hk) as [Hin|Hz']; [|now right].
      destruct (decide (k = inl z)) as [->|Hne]; [right; eauto|].
      left. now rewrite lookup_insert_ne in Hin.
    + constructor; [|exact Hrows].
      exists v, z. split; [exact Hv|]. split; [exact Hz|].
      apply Hmono. rewrite lookup_insert_eq. eauto.
Qed.

(** X15. [import_morpho_db] on an empty table raises [IndexError].  When
    it returns, every key of the result is an integer, and every row of
    the table is found under the integer of its [cell_specimen_id]. *)
Theorem import_morpho_db_keys address rs :
  pyodbc_installed env = true ->
  config_morpho_address env = Some address ->
  pyodbc_query env
    ("DRIVER={Microsoft Access Driver (*.mdb, *.accdb)}; DBQ=" +:+ address)
    "select * from MPATCH_CellsofCluster" = Ok rs ->
  (fetchall rs = [] ->
   import_morpho_db builtin env = Raise (IndexError "list index out of range"))
  /\
  (forall mr,
      import_morpho_db builtin env = Ok mr ->
      (forall k, is_Some (mr !! k) -> exists z, k = inl z)
      /\ Forall (fun r => exists v z,
                    getattr (description rs) r "cell_specimen_id" = Ok v
                    /\ Py.int_ builtin v = Ok z
                    /\ is_Some (mr !! (inl z : pykey))) (fetchall rs)).
Proof.
  intros Hinst Haddr Hq. unfold import_morpho_db.
  rewrite Hinst, Haddr. cbn. rewrite Hq. cbn. split.
  - intros ->. reflexivity.
  - intros mr H.
    assert (Hrun : rows_dict builtin (description rs) (description rs) (fetchall rs) ∅ = Ok mr).
    { destruct (fetchall rs) as [|r0 rest]; [discriminate|exact H]. }
    clear H. apply rows_dict_keys in Hrun. destruct Hrun as (_ & Hkeys & Hall).
    split; [|exact Hall].
    intros k Hk. destruct (Hkeys k Hk) as [Hempty|Hz]; [|exact Hz].
    rewrite lookup_empty in Hempty. now destruct Hempty.
Qed.

Lemma json_keys (doc : list (string * row)) : forall (acc mr : morpho_results_t),
  fold_left (fun (m : morpho_results_t) kv => <[inr (fst kv) := snd kv]> m) doc acc = mr ->
  forall k, is_Some (mr !! k) -> is_Some (acc !! k) \/ exists s, k = inr s.
Proof.
  induction doc as [|[s d] doc IH]; intros acc mr H k Hk.
  - subst. now left.
  - cbn in H. destruct (IH _ _ H k Hk) as [Hin|Hs]; [|now right].
    destruct (decide (k = inr s)) as [->|Hne]; [right; eauto|].
    left. now rewrite lookup_insert_ne in Hin.
Qed.

(** X16. With no Access database configured the source is the JSON
    file, whose keys are strings.  An integer specimen id then never
    finds its row, at import or in [ready_jobs]: every cell of a cluster
    hashes like a cell absent from the source, to the MD5 of the empty
    string. *)
Theorem json_source_has_string_keys mr :
  config_morpho_address env = None ->
  morpho_db builtin env = Ok mr ->
  (forall k, is_Some (mr !! k) -> exists s, k = inr s)
  /\ (forall z, (Py.key_of (VInt z) ≫= fun k => mr !! k) = None)
  /\ (forall id, recomputed_hash mr id = Ok "d41d8cd98f00b204e9800998ecf8427e").
Proof.
  intros Haddr. unfold morpho_db. rewrite Haddr.
  destruct (config_morpho_json_file env) as [file|]; [|discriminate]. cbn.
  destruct (json_load_open env file) as [doc|]; [|discriminate]. cbn.
  intros [= H].
  assert (Hkeys : forall k, is_Some (mr !! k) -> exists s, k = inr s).
  { intros k Hk. destruct (json_keys doc ∅ mr H k Hk) as [He|Hs]; [|exact Hs].
    rewrite lookup_empty in He. now destruct He. }
  assert (Hint : forall z, mr !! (inl z : pykey) = None).
  { intros z. destruct (mr !! (inl z : pykey)) eqn:Hz; [|reflexivity].
    destruct (Hkeys (inl z)) as [s Hs]; [rewrite Hz; eauto|discriminate]. }
  split; [exact Hkeys|]. split.
  - intros z. cbn. apply Hint.
  - intros id. unfold recomputed_hash. rewrite Hint. vm_compute. reflexivity.
Qed.

(** Python's [lstrip] drops a prefix made of the given characters and
    stops at the first character outside them. *)
Lemma lstrip_spec chars s :
  exists pre,
    s = pre +:+ Py.lstrip chars s
    /\ Forall (fun c => Py.contains c chars = true) (list_ascii_of_string pre)
    /\ match Py.lstrip chars s with
       | EmptyString => True
       | String c _ => Py.contains c chars = false
       end.
Proof.
  induction s as [|c s (pre & Hs & Hpre & Hrest)]; cbn [Py.lstrip].
  - exists EmptyString. repeat split. constructor.
  - destruct (Py.contains c chars) eqn:Hc.
    + exists (String c pre). split; [|split].
      * change (String c s = String c (pre +:+ Py.lstrip chars s)). now f_equal.
      * cbn. now constructor.
      * exact Hrest.
    + exists EmptyString. repeat split; [constructor|exact Hc].
Qed.

(** X17. The cortical layer of a record is NULL when the cell has no
    specimen id or LIMS knows no layer for it; otherwise it is the LIMS
    text without its longest prefix made of the letters of "Layer", so
    it never starts with one of L, a, y, e, r. *)
Theorem cortical_layer_stripped sid :
  (sid = VNone -> cortical_layer_of env sid = VNone)
  /\ (sid <> VNone -> lims_cell_layer env sid = None -> cortical_layer_of env sid = VNone)
  /\ (forall layer,
         sid <> VNone -> lims_cell_layer env sid = Some layer ->
         exists pre rest,
           layer = pre +:+ rest
           /\ cortical_layer_of env sid = VStr rest
           /\ Forall (fun c => Py.contains c "Layer" = true) (list_ascii_of_string pre)
           /\ match rest with
              | EmptyString => True
              | String c _ => Py.contains c "Layer" = false
              end).
Proof.
  split; [|split].
  - now intros ->.
  - intros Hne Hl. unfold cortical_layer_of. rewrite Hl. now destruct sid.
  - intros layer Hne Hl. destruct (lstrip_spec "Layer" layer) as (pre & Hs & Hpre & Hrest).
    exists pre, (Py.lstrip "Layer" layer). split; [exact Hs|].
    split; [|split; assumption].
    unfold cortical_layer_of. rewrite Hl. destruct sid; congruence.
Qed.

End Source.

Section SourceExamples.

Import MorphologyPipelineModule Examples.

Lemma cell_class_after_import_witness :
  exists c,
    session_dirty
      (snd (run (import_cell plain_builtins env_three source_three pipettes_3 cell_1)
                empty_world)) !! cell_id cell_1 = Some c
    /\ cell_class_nonsynaptic c = VStr "ex".
Proof.
  destruct (cell_class_after_import plain_builtins env_three source_three pipettes_3
              cell_1 {[ "morphology" := VStr "pyr" ]} empty_world
              (snd (run (import_cell plain_builtins env_three source_three pipettes_3
                           cell_1) empty_world)))
    as (m & tc & c & Hnew & Htc & Hc & H).
  - vm_compute. reflexivity.
  - vm_compute. reflexivity.
  - cbv zeta in H. destruct H as (_ & Hspiny & _ & _ & Hnone & _).
    exists c. split; [exact Hc|].
    rewrite Hnone.
    + apply Hspiny. vm_compute in Hnew. injection Hnew as <-. vm_compute. reflexivity.
    + vm_compute in Htc. injection Htc as <-. reflexivity.
Defined.

Lemma import_cell_needs_transgenic_class_witness :
  exists e w2,
    run (import_cell plain_builtins env_three source_three pipettes_3 cell_unclassed)
        empty_world = (Raise e, w2)
    /\ session_new w2 = session_new empty_world.
Proof.
  apply (import_cell_needs_transgenic_class plain_builtins env_three source_three
           pipettes_3 cell_unclassed ∅ empty_world).
  - vm_compute. reflexivity.
  - vm_compute. reflexivity.
Defined.


Lemma annotated_columns_witness :
  exists results',
    annotate plain_builtins (Some row_101) (VInt 101) ∅ = Ok results'
    /\ results' !! "morpho_db_hash" = Some (VStr (stored_hash plain_builtins row_101)).
Proof.
  destruct (annotate plain_builtins (Some row_101) (VInt 101) ∅) as [r|e] eqn:H.
  - exists r. split; [reflexivity|].
    exact (proj1 (annotated_columns plain_builtins row_101 (VInt 101) ∅ r H)).
  - vm_compute in H. discriminate.
Defined.

Lemma missing_field_raises_witness :
  annotate plain_builtins (Some row_short) (VInt 104) ∅
  = Raise (KeyError (Msg "dendrite_type")).
Proof.
  refine (missing_field_raises plain_builtins row_short (VInt 104) ∅
            [("Qual_Morpho_Type", ("qual_morpho_type", TStr))]
            "dendrite_type" "dendrite_type"
            (TList ["spiny"; "aspiny"; "sparsely spiny"; "NEI"]) _ _ _ _).
  - reflexivity.
  - constructor; [|constructor]. exists (VStr "stellate"). split; [reflexivity|].
    right. eexists. reflexivity.
  - reflexivity.
Defined.

Lemma import_morpho_db_keys_witness :
  import_morpho_db plain_builtins (env_access [])
  = Raise (IndexError "list index out of range")
  /\ Forall (fun r => exists v z,
                getattr morpho_fields r "cell_specimen_id" = Ok v
                /\ Py.int_ plain_builtins v = Ok z
                /\ is_Some (source_three !! (inl z : pykey)))
            [morpho_row_101; morpho_row_102; morpho_row_103].
Proof.
  split.
  - apply (proj1 (import_morpho_db_keys plain_builtins (env_access []) "morpho.accdb"
                    (mkResultSet morpho_fields []) eq_refl eq_refl eq_refl)).
    reflexivity.
  - apply (proj2 (import_morpho_db_keys plain_builtins env_three "morpho.accdb"
                    (mkResultSet morpho_fields
                       [morpho_row_101; morpho_row_102; morpho_row_103])
                    eq_refl eq_refl eq_refl) source_three).
    vm_compute. reflexivity.
Defined.

Lemma json_source_has_string_keys_witness :
  morpho_db plain_builtins env_json = Ok {[ (inr "101" : pykey) := row_101 ]}
  /\ recomputed_hash {[ (inr "101" : pykey) := row_101 ]} 101
     = Ok "d41d8cd98f00b204e9800998ecf8427e"
  /\ (Py.key_of (VInt 101) ≫= fun k => ({[ (inr "101" : pykey) := row_101 ]}
                                          : morpho_results_t) !! k) = None.
Proof.
  assert (H : morpho_db plain_builtins env_json = Ok {[ (inr "101" : pykey) := row_101 ]})
    by (vm_compute; reflexivity).
  destruct (json_source_has_string_keys plain_builtins env_json _ eq_refl H)
    as (_ & Hint & Hhash).
  split; [exact H|]. split; [apply Hhash|apply Hint].
Defined.

Lemma cortical_layer_stripped_witness :
  exists pre rest,
    "Layer2/3" = pre +:+ rest
    /\ cortical_layer_of env_three (VInt 101) = VStr rest
    /\ Forall (fun c => Py.contains c "Layer" = true) (list_ascii_of_string pre)
    /\ match rest with
       | EmptyString => True
       | String c _ => Py.contains c "Layer" = false
       end.
Proof.
  apply (proj2 (proj2 (cortical_layer_stripped env_three (VInt 101)))).
  - discriminate.
  - reflexivity.
Defined.

End SourceExamples.

(* ===================================================================== *)
(** ** Further properties: the fit methods *)
(* ===================================================================== *)

Section FitShapes.

Import ExpFitTest.

Variable np_exp : float -> float.
Variable np_sum : ndarray -> float.
Variable np_linalg_norm : ndarray -> float.
Variable psp_func :
  ndarray -> float -> float -> float -> float -> float -> Z -> result ndarray.
Variable minimize : minimizer.

Lemma broadcast_compatible op (a b : ndarray) :
  List.length a = List.length b \/ List.length a = 1%nat \/ List.length b = 1%nat ->
  exists c, broadcast op a b = Ok c.
Proof.
  unfold broadcast. intros H.
  destruct (List.length a =? List.length b)%nat eqn:Hab; [eauto|].
  apply Nat.eqb_neq in Hab.
  destruct H as [H|[H|H]]; [contradiction| |].
  - destruct a as [|x [|x' a]]; try discriminate. eauto.
  - destruct b as [|y [|y' b]]; try discriminate.
    destruct a as [|x [|x' a]]; eauto.
Qed.

Lemma broadcast_incompatible op (a b : ndarray) :
  List.length a <> List.length b ->
  List.length a <> 1%nat -> List.length b <> 1%nat ->
  broadcast op a b
  = Raise (ValueError (broadcast_error (List.length a) (List.length b))).
Proof.
  unfold broadcast. intros Hab Ha Hb.
  apply Nat.eqb_neq in Hab. rewrite Hab.
  destruct a as [|x [|x' a]]; [|contradiction|];
    (destruct b as [|y [|y' b]]; [|contradiction|]); reflexivity.
Qed.

Lemma exp_fn_length params (t : ndarray) :
  List.length (exp_fn np_exp params t) = List.length t.
Proof.
  destruct params. unfold exp_fn, exp_t_over_tau. now rewrite !length_map.
Qed.

(** X18. The objective [exp_err_fn] and the gradient [exp_jac_fn] accept
    the same sample arrays: both return when [t] and [y] have the same
    length or one of them has a single element, and both raise
    [ValueError] for every other pair of lengths.  The message names the
    two shapes in the order of the operands of the subtraction that
    fails: [y] first in [exp_err_fn], the model (as long as [t]) first
    in [exp_jac_fn]. *)
Theorem exp_objective_and_gradient_shapes params (t y : ndarray) :
  (List.length t = List.length y \/ List.length t = 1%nat \/ List.length y = 1%nat ->
   exists v g,
     exp_err_fn np_exp np_linalg_norm params t y = Ok v
     /\ exp_jac_fn np_exp np_sum params t y = Ok g)
  /\
  (List.length t <> List.length y ->
   List.length t <> 1%nat -> List.length y <> 1%nat ->
   exp_err_fn np_exp np_linalg_norm params t y
   = Raise (ValueError (broadcast_error (List.length y) (List.length t)))
   /\ exp_jac_fn np_exp np_sum params t y
      = Raise (ValueError (broadcast_error (List.length t) (List.length y)))).
Proof.
  split.
  - intros H.
    assert (Hyt : List.length y = List.length (exp_fn np_exp params t)
                  \/ List.length y = 1%nat
                  \/ List.length (exp_fn np_exp params t) = 1%nat)
      by (rewrite exp_fn_length;
          destruct H as [H|[H|H]];
          [left; symmetry; exact H|right; right; exact H|right; left; exact H]).
    assert (Hty : List.length (exp_fn np_exp params t) = List.length y
                  \/ List.length (exp_fn np_exp params t) = 1%nat
                  \/ List.length y = 1%nat)
      by (rewrite exp_fn_length; exact H).
    destruct (broadcast_compatible F64.sub _ _ Hyt) as (r & Hr).
    destruct (broadcast_compatible F64.sub _ _ Hty) as (r' & Hr').
    assert (Hnorm : exists norm, jac_norm np_exp np_sum params t y = Ok norm).
    { unfold jac_norm, jac_residual. rewrite Hr'. cbn. eauto. }
    destruct Hnorm as (norm & Hnorm).
    destruct (jac_numerators_ok np_exp np_sum params t y norm Hnorm) as ([[n1 n2] n3] & Hn).
    eexists _, _. split.
    + unfold exp_err_fn. rewrite Hr. reflexivity.
    + unfold exp_jac_fn. rewrite Hnorm. cbn. rewrite Hn. reflexivity.
  - intros Hne Ht Hy. split.
    + unfold exp_err_fn. rewrite broadcast_incompatible;
        rewrite ?exp_fn_length; [reflexivity| | |]; congruence.
    + unfold exp_jac_fn, jac_norm, jac_residual.
      rewrite broadcast_incompatible;
        rewrite ?exp_fn_length; [reflexivity| | |]; congruence.
Qed.

(** X19. Evaluating a dictionary returned by [fit] gives the model at
    the parameter vector the minimizer returned (not at the initial
    guess), one value per requested time. *)
Theorem eval_of_fit_result self clk (y t : ndarray) r (t' : ndarray) :
  ExpFitMethod_fit np_exp np_sum np_linalg_norm minimize self clk y t = Ok r ->
  exists res init,
    exp_init y t = Ok init
    /\ exp_minimize np_exp np_sum np_linalg_norm minimize self y t init = Ok res
    /\ ExpFitMethod_eval np_exp r t' = exp_fn np_exp (opt_x res) t'
    /\ List.length (ExpFitMethod_eval np_exp r t') = List.length t'.
Proof.
  unfold ExpFitMethod_fit, exp_minimize. intros H.
  destruct (exp_init y t) as [init|e]; [|discriminate]. cbn in H.
  destruct (minimize exp_params _ init _ (exp_method self) None) as [res|e] eqn:Hres;
    [|discriminate].
  injection H as <-. exists res, init.
  split; [reflexivity|]. split; [exact Hres|].
  unfold ExpFitMethod_eval. cbn. destruct res as [[a b c] ? ? ?]. cbn.
  split; [reflexivity|]. unfold exp_t_over_tau. now rewrite !length_map.
Qed.

End FitShapes.

Section FitShapesExamples.

Import ExpFitTest Examples.

Lemma exp_objective_and_gradient_shapes_witness :
  (exists v g,
      exp_err_fn exp_taylor norm2 perfect_params t_decay y_decay = Ok v
      /\ exp_jac_fn exp_taylor sum_seq perfect_params t_decay y_decay = Ok g)
  /\ exp_err_fn exp_taylor norm2 perfect_params t_decay (y_decay ++ y_decay)
     = Raise (ValueError "operands could not be broadcast together with shapes (6,) (3,) ")
  /\ exp_jac_fn exp_taylor sum_seq perfect_params t_decay (y_decay ++ y_decay)
     = Raise (ValueError "operands could not be broadcast together with shapes (3,) (6,) ").
Proof.
  split.
  - apply (proj1 (exp_objective_and_gradient_shapes exp_taylor sum_seq norm2
                    perfect_params t_decay y_decay)).
    left. reflexivity.
  - destruct (proj2 (exp_objective_and_gradient_shapes exp_taylor sum_seq norm2
                       perfect_params t_decay (y_decay ++ y_decay)))
      as [Herr Hjac]; try (vm_compute; discriminate).
    rewrite Herr, Hjac. split; vm_compute; reflexivity.
Defined.

Lemma eval_of_fit_result_witness :
  exists r res init,
    ExpFitMethod_fit exp_taylor sum_seq norm2 one_shot_minimizer exp_method_bfgs
      clock_1s y_decay t_decay = Ok r
    /\ exp_init y_decay t_decay = Ok init
    /\ exp_minimize exp_taylor sum_seq norm2 one_shot_minimizer exp_method_bfgs
         y_decay t_decay init = Ok res
    /\ ExpFitMethod_eval exp_taylor r t_perfect = exp_fn exp_taylor (opt_x res) t_perfect
    /\ List.length (ExpFitMethod_eval exp_taylor r t_perfect) = List.length t_perfect.
Proof.
  destruct (ExpFitMethod_fit exp_taylor sum_seq norm2 one_shot_minimizer exp_method_bfgs
              clock_1s y_decay t_decay) as [r|e] eqn:H.
  - destruct (eval_of_fit_result exp_taylor sum_seq norm2 one_shot_minimizer
                exp_method_bfgs clock_1s y_decay t_decay r t_perfect H)
      as (res & init & H1 & H2 & H3 & H4).
    exists r, res, init. auto.
  - vm_compute in H. discriminate.
Defined.

End FitShapesExamples.
